(** * Shapefile ingestion: geometry validation, plot normalisation, upload checks

    A shallow embedding of [ShapefileService] (services/shapefileService.ts):
    [validateGeometry], [convertToPlotData], [parseShapefileFromZip],
    [generateMockFeaturesFromFile], [calculateBounds], [getSupportedFormats]
    and [validateFile], followed by the properties the specification states
    about them.

    JavaScript numbers are IEEE-754 doubles and are modelled by Rocq's
    primitive floats, so comparisons behave on NaN as they do in the source.
    Exceptions are an explicit [Throw] result; [Date.now()] and
    [Math.random()] read an oracle through a counter that is threaded as
    state.  The geometry library (turf) is not part of the repository: it is
    an interface, [Turf], and the properties are proved for every
    implementation of it; the two that compare the area of a feature with
    the area of the polygon rebuilt from its coordinates also take the
    library's documented contract, [TurfSpec]. *)

From Stdlib Require Import Floats ZArith Ascii String.
From stdpp Require Import gmap strings list pretty.

Local Open Scope string_scope.
#[local] Set Warnings "-inexact-float".

(** ** Results that may throw, and a state-and-exception monad *)

Inductive Exc (A : Type) : Type :=
| Return (a : A)
| Throw (message : string).
Arguments Return {A} a.
Arguments Throw {A} message.

Definition is_Return {A} (r : Exc A) : bool :=
  match r with Return _ => true | Throw _ => false end.

(** A computation over a mutable state [S] that returns or throws; the state
    reached when it throws is kept, as the effects already happened. *)
Definition M (S A : Type) : Type := S → Exc A * S.

Definition ret {S A} (a : A) : M S A := λ s, (Return a, s).

Definition throw {S A} (message : string) : M S A := λ s, (Throw message, s).

Definition lift {S A} (r : Exc A) : M S A := λ s, (r, s).

Definition bind {S A B} (m : M S A) (k : A → M S B) : M S B :=
  λ s, match m s with
       | (Return a, s') => k a s'
       | (Throw e, s') => (Throw e, s')
       end.

Definition try_catch {S A} (body : M S A) (handler : string → M S A) : M S A :=
  λ s, match body s with
       | (Return a, s') => (Return a, s')
       | (Throw e, s') => handler e s'
       end.

Definition when {S} (c : bool) (m : M S unit) : M S unit :=
  if c then m else ret tt.

Notation "'let*' x ':=' m 'in' k" := (bind m (λ x, k))
  (at level 10, x name, m at level 100, k at level 200, only parsing).
Notation "'do' m 'in' k" := (bind m (λ _, k))
  (at level 10, m at level 100, k at level 200, only parsing).

(** ** JavaScript values *)

(** The untyped values that flow through the service: attribute values read
    from the attribute table and GeoJSON coordinate arrays. *)
#[warnings="-register-all"]
Inductive JsValue : Type :=
| JsUndefined
| JsNull
| JsBoolean (b : bool)
| JsNumber (n : float)
| JsString (s : string)
| JsArray (items : list JsValue).

(** ToBoolean: [undefined], [null], [false], [0], [-0], [NaN] and the empty
    string are falsy; everything else is truthy. *)
Definition truthy (v : JsValue) : bool :=
  match v with
  | JsUndefined | JsNull => false
  | JsBoolean b => b
  | JsNumber n => (n =? n)%float && negb (n =? 0)%float
  | JsString s => negb (String.eqb s "")
  | JsArray _ => true
  end.

(** [a || b] on values whose right operand has no effect. *)
Definition js_or (a b : JsValue) : JsValue := if truthy a then a else b.

(** [properties.key]: a missing key reads as [undefined]. *)
Definition prop (properties : gmap string JsValue) (key : string) : JsValue :=
  default JsUndefined (properties !! key).

(** ** GeoJSON objects *)

Module GeoJSON.

Record Geometry : Type := {
  type : string;
  coordinates : JsValue
}.

(** [geometry] and [properties] are [None] when [null] or [undefined]. *)
Record Feature : Type := {
  geometry : option Geometry;
  properties : option (gmap string JsValue)
}.

Record FeatureCollection : Type := {
  features : list Feature
}.

End GeoJSON.

(** ** The geometry library *)

(** The operations of turf that the service calls.  Each may throw. *)
Class Turf : Type := {
  turf_polygon : JsValue → Exc GeoJSON.Feature;
  turf_booleanValid : GeoJSON.Feature → Exc bool;
  turf_kinks : GeoJSON.Feature → Exc GeoJSON.FeatureCollection;
  turf_area : GeoJSON.Feature → Exc float;
  turf_bbox : GeoJSON.FeatureCollection → Exc (list float);
  turf_bboxPolygon : list float → Exc GeoJSON.Feature
}.

(** [turf.featureCollection(features)] wraps the array. *)
Definition turf_featureCollection (features : list GeoJSON.Feature)
  : GeoJSON.FeatureCollection :=
  {| GeoJSON.features := features |}.

(** What the library documents about the two operations whose results the
    service combines: [turf.polygon(c)] returns a Feature whose geometry is
    [{type: 'Polygon', coordinates: c}], and [turf.area] of a Feature reads
    its geometry only. *)
Class TurfSpec (T : Turf) : Prop := {
  turf_polygon_geometry : ∀ c p,
    turf_polygon c = Return p →
    GeoJSON.geometry p = Some {| GeoJSON.type := "Polygon"; GeoJSON.coordinates := c |};
  turf_area_geometry : ∀ f1 f2,
    GeoJSON.geometry f1 = GeoJSON.geometry f2 → turf_area f1 = turf_area f2
}.

(** ** validateGeometry *)

Record ValidationResult : Type := {
  isValid : bool;
  errors : list string
}.

Section Validation.
Context {T : Turf}.

(** [errors.push(reason)] *)
Definition push (reason : string) : M (list string) unit :=
  λ errors, (Return tt, (errors ++ [reason])%list).

(** [{ isValid, errors }] built from the current [errors] array. *)
Definition result (valid : list string → bool) : M (list string) ValidationResult :=
  λ errors, (Return {| isValid := valid errors; errors := errors |}, errors).

(** The body of the [try] block. *)
Definition validateGeometry_try (geometry : option GeoJSON.Geometry)
  : M (list string) ValidationResult :=
  let reject :=
    do push "Geometry must be a Polygon" in
    result (λ _, false) in
  match geometry with
  | None => reject
  | Some g =>
    if negb (String.eqb (GeoJSON.type g) "Polygon") then reject
    else
      let* polygon := lift (turf_polygon (GeoJSON.coordinates g)) in
      let* valid := lift (turf_booleanValid polygon) in
      do when (negb valid) (push "Invalid polygon geometry") in
      let* kinks := lift (turf_kinks polygon) in
      do when (0 <? length (GeoJSON.features kinks))%nat
           (push "Polygon has self-intersections") in
      let* area := lift (turf_area polygon) in
      do when (area <? 1)%float (push "Area too small") in
      do when (10000000 <? area)%float (push "Area too large") in
      result (λ errors, (length errors =? 0)%nat)
  end.

Definition validateGeometry (geometry : option GeoJSON.Geometry) : ValidationResult :=
  let catch (_ : string) :=
    do push "Invalid geometry format" in
    result (λ _, false) in
  match try_catch (validateGeometry_try geometry) catch [] with
  | (Return r, _) => r
  | (Throw _, errors) => {| isValid := false; errors := errors |}
  end.

End Validation.

(** ** Strings and numbers of the JavaScript runtime *)

(** [toLowerCase] on the ASCII letters; other bytes are left as they are. *)
Definition lower_ascii (c : ascii) : ascii :=
  let n := nat_of_ascii c in
  if (65 <=? n)%nat && (n <=? 90)%nat then ascii_of_nat (n + 32) else c.

Fixpoint toLowerCase (s : string) : string :=
  match s with
  | "" => ""
  | String c rest => String (lower_ascii c) (toLowerCase rest)
  end.

(** [s.endsWith(suffix)] *)
Definition endsWith (s suffix : string) : bool :=
  (String.length suffix <=? String.length s)%nat &&
  String.eqb
    (substring (String.length s - String.length suffix) (String.length suffix) s)
    suffix.

(** [s.split(sep)] for a one-character separator: never empty. *)
Fixpoint split (sep : ascii) (s : string) : list string :=
  match s with
  | "" => [""]
  | String c rest =>
    if Ascii.eqb c sep then "" :: split sep rest
    else match split sep rest with
         | first :: others => String c first :: others
         | [] => [String c ""]
         end
  end.

(** [s.replace(c, '')] for a one-character pattern: the first occurrence
    only. *)
Fixpoint remove_first (c : ascii) (s : string) : string :=
  match s with
  | "" => ""
  | String a rest => if Ascii.eqb a c then rest else String a (remove_first c rest)
  end.

Fixpoint repeat_ascii (n : nat) (c : ascii) : string :=
  match n with
  | O => ""
  | S n' => String c (repeat_ascii n' c)
  end.

(** [s.padStart(width, c)] *)
Definition padStart (width : nat) (c : ascii) (s : string) : string :=
  repeat_ascii (width - String.length s) c +:+ s.

(** The integer below a finite double. *)
Definition floor_Z (x : float) : option Z :=
  match Prim2SF x with
  | S754_zero _ => Some 0%Z
  | S754_finite s m e =>
    let v := if s then Z.neg m else Z.pos m in
    Some (if (0 <=? e)%Z then v * 2 ^ e else v / 2 ^ (- e))%Z
  | S754_infinity _ | S754_nan => None
  end.

Definition float_of_Z (z : Z) : float :=
  if (0 <=? z)%Z then of_uint63 (Uint63.of_Z z)
  else (- of_uint63 (Uint63.of_Z (- z)))%float.

(** [Math.floor]: zeros, infinities, NaN and doubles with no fractional bits
    are returned as they are. *)
Definition Math_floor (x : float) : float :=
  match Prim2SF x with
  | S754_finite _ _ e =>
    if (0 <=? e)%Z then x
    else match floor_Z x with Some z => float_of_Z z | None => x end
  | _ => x
  end.

(** [array[x]] for a number [x]: an element when [x] is a whole number within
    the array, [undefined] otherwise. *)
Definition js_index (array : list string) (x : float) : JsValue :=
  match floor_Z x with
  | Some z =>
    if (x =? Math_floor x)%float && (0 <=? z)%Z
    then from_option JsString JsUndefined (array !! Z.to_nat z)
    else JsUndefined
  | None => JsUndefined
  end.

(** The runtime services the code reads: the clock and the random source are
    oracles indexed by the number of earlier calls; [toString(36)] of a
    number and [JSON.stringify] of a geometry are the runtime's. *)
Class Runtime : Type := {
  Date_now : nat → N;
  Math_random : nat → float;
  Number_toString36 : float → string;
  JSON_stringify : option GeoJSON.Geometry → string
}.

Record Counters : Type := {
  now_calls : nat;
  random_calls : nat
}.

(** ** Plot records and shapefile data *)

Record ParsedPlotData : Type := {
  plot_code : JsValue;
  geometry : string;
  area_sqm : float;
  land_use : JsValue;
  owner_name : JsValue;
  price_usd : JsValue;
  notes : JsValue;
  attributes : gmap string JsValue
}.

Record Metadata : Type := {
  fileCount : nat;
  hasProjection : bool
}.

Record ShapefileData : Type := {
  features : list GeoJSON.Feature;
  projection : option string;
  bounds : option GeoJSON.Geometry;
  metadata : Metadata
}.

(** An uploaded file: its name, its size in bytes, and what
    [JSZip.loadAsync] makes of its bytes: the entry names
    [Object.keys(zip.files)], or the error it rejects with. *)
Record File : Type := {
  name : string;
  size : N;
  archive : Exc (list string)
}.

(** ** The service *)

(** [!name] for a name that may be [undefined]: absent, or empty. *)
Definition missing (found : option string) : bool :=
  match found with
  | None => true
  | Some entry => String.eqb entry ""
  end.

Section Service.
Context {T : Turf} {R : Runtime}.

(** [Date.now()] *)
Definition date_now : M Counters N :=
  λ s, (Return (Date_now (now_calls s)),
        {| now_calls := S (now_calls s); random_calls := random_calls s |}).

(** [Math.random()] *)
Definition math_random : M Counters float :=
  λ s, (Return (Math_random (random_calls s)),
        {| now_calls := now_calls s; random_calls := S (random_calls s) |}).

(** [`PLOT_${Date.now()}_${Math.random().toString(36).substr(2, 9)}`] *)
Definition synthesizedPlotCode : M Counters JsValue :=
  let* now := date_now in
  let* random := math_random in
  ret (JsString ("PLOT_" +:+ pretty now +:+ "_" +:+
                 substring 2 9 (Number_toString36 random))).

(** [properties.PLOT_CODE || properties.plot_code || properties.ID || `...`]:
    the template is evaluated only when the three reads are all falsy. *)
Definition plotCode (properties : gmap string JsValue) : M Counters JsValue :=
  let found :=
    js_or (js_or (prop properties "PLOT_CODE") (prop properties "plot_code"))
          (prop properties "ID") in
  if truthy found then ret found else synthesizedPlotCode.

(** The body of the [try] block of the loop of [convertToPlotData]:
    [Some plotData] when the record is pushed, [None] on [continue].
    The console output is not modelled. *)
Definition convertFeature_try (feature : GeoJSON.Feature)
  : M Counters (option ParsedPlotData) :=
  let geometry := GeoJSON.geometry feature in
  let properties := default ∅ (GeoJSON.properties feature) in
  let* area := lift (turf_area feature) in
  let* code := plotCode properties in
  let plotData := {|
    plot_code := code;
    geometry := JSON_stringify geometry;
    area_sqm := area;
    land_use :=
      js_or (js_or (js_or (prop properties "LAND_USE") (prop properties "land_use"))
                   (prop properties "USE"))
            (prop properties "TYPE");
    owner_name :=
      js_or (js_or (prop properties "OWNER") (prop properties "owner"))
            (prop properties "OWNER_NAME");
    price_usd :=
      js_or (js_or (prop properties "PRICE_USD") (prop properties "price"))
            (prop properties "VALUE");
    notes :=
      js_or (js_or (prop properties "NOTES") (prop properties "notes"))
            (prop properties "REMARKS");
    attributes := properties
  |} in
  let validation := validateGeometry geometry in
  if negb (isValid validation) then ret None
  else ret (Some plotData).

Definition convertFeature (feature : GeoJSON.Feature)
  : M Counters (option ParsedPlotData) :=
  try_catch (convertFeature_try feature) (λ _, ret None).

(** The [for ... of] loop; [plotsData] is the array being filled. *)
Fixpoint convertLoop (features : list GeoJSON.Feature)
    (plotsData : list ParsedPlotData) : M Counters (list ParsedPlotData) :=
  match features with
  | [] => ret plotsData
  | feature :: rest =>
    let* pushed := convertFeature feature in
    convertLoop rest
      (match pushed with
       | Some plotData => (plotsData ++ [plotData])%list
       | None => plotsData
       end)
  end.

Definition convertToPlotData (shapefileData : ShapefileData)
  : M Counters (list ParsedPlotData) :=
  convertLoop (features shapefileData) [].

(** [calculateBounds] *)
Definition calculateBounds (features : list GeoJSON.Feature)
  : M Counters (option GeoJSON.Geometry) :=
  if (length features =? 0)%nat then ret None
  else
    let collection := turf_featureCollection features in
    let* bbox := lift (turf_bbox collection) in
    let* polygon := lift (turf_bboxPolygon bbox) in
    ret (GeoJSON.geometry polygon).

(** One round of the loop of [generateMockFeaturesFromFile]. *)
Definition mockFeature (i : nat) : M Counters GeoJSON.Feature :=
  let baseCoords := ((-74.006)%float, 40.7128%float) in
  let* r1 := math_random in
  let offsetLat := ((r1 - 0.5) * 0.01)%float in
  let* r2 := math_random in
  let offsetLng := ((r2 - 0.5) * 0.01)%float in
  let position (x y : float) := JsArray [JsNumber x; JsNumber y] in
  let* polygon := lift (turf_polygon (JsArray [JsArray [
    position (baseCoords.1 + offsetLng) (baseCoords.2 + offsetLat);
    position (baseCoords.1 + offsetLng + 0.001) (baseCoords.2 + offsetLat);
    position (baseCoords.1 + offsetLng + 0.001) (baseCoords.2 + offsetLat + 0.001);
    position (baseCoords.1 + offsetLng) (baseCoords.2 + offsetLat + 0.001);
    position (baseCoords.1 + offsetLng) (baseCoords.2 + offsetLat)
  ]%float])) in
  let* r3 := math_random in
  let* r4 := math_random in
  let* r5 := math_random in
  ret {|
    GeoJSON.geometry := GeoJSON.geometry polygon;
    GeoJSON.properties := Some (
      <["PLOT_CODE" := JsString ("LP" +:+ padStart 3 "0" (pretty (i + 1)%nat))]> (
      <["LAND_USE" :=
          js_index ["Residential"; "Commercial"; "Agricultural"; "Industrial"]
                   (Math_floor (r3 * 4))]> (
      <["OWNER" := JsString ("Owner " +:+ pretty (i + 1)%nat)]> (
      <["AREA_SQM" := JsNumber (Math_floor (r4 * 2000) + 500)]> (
      <["PRICE_USD" := JsNumber (Math_floor (r5 * 200000) + 50000)]> ∅)))))%float
  |}.

Fixpoint mockLoop (indices : list nat) (features : list GeoJSON.Feature)
  : M Counters (list GeoJSON.Feature) :=
  match indices with
  | [] => ret features
  | i :: rest =>
    let* feature := mockFeature i in
    mockLoop rest (features ++ [feature])%list
  end.

(** [generateMockFeaturesFromFile]: [for (let i = 0; i < 10; i++)]. *)
Definition generateMockFeaturesFromFile (file : File)
  : M Counters (list GeoJSON.Feature) :=
  mockLoop (seq 0 10) [].

(** [parseShapefileFromZip] *)
Definition parseShapefileFromZip (file : File) : M Counters ShapefileData :=
  try_catch
    (let* files := lift (archive file) in
     let shpFile := List.find (λ name, endsWith (toLowerCase name) ".shp") files in
     let dbfFile := List.find (λ name, endsWith (toLowerCase name) ".dbf") files in
     let prjFile := List.find (λ name, endsWith (toLowerCase name) ".prj") files in
     if missing shpFile || missing dbfFile
     then throw "Shapefile must contain .shp and .dbf files"
     else
       let* mockFeatures := generateMockFeaturesFromFile file in
       let* bounds := calculateBounds mockFeatures in
       ret {|
         features := mockFeatures;
         projection := if missing prjFile then None else Some "EPSG:4326";
         bounds := bounds;
         metadata := {|
           fileCount := length files;
           hasProjection := negb (missing prjFile)
         |}
       |})
    (λ message, throw ("Failed to parse shapefile: " +:+ message)).

End Service.

(** [getSupportedFormats] *)
Definition getSupportedFormats : list string :=
  [".zip"; ".shp"; ".shx"; ".dbf"; ".prj"; ".cpg"].

(** [file.name.toLowerCase().split('.').pop()] *)
Definition extension (file : File) : option string :=
  last (split "." (toLowerCase (name file))).

(** [validateFile] *)
Definition validateFile (file : File) : ValidationResult :=
  let maxSize := (50 * 1024 * 1024)%N in
  let errors := [] in
  let errors :=
    if (maxSize <? size file)%N
    then (errors ++ ["File size exceeds 50MB limit"])%list else errors in
  let supportedFormats := map (remove_first ".") getSupportedFormats in
  let errors :=
    if missing (extension file) ||
       negb (bool_decide (default "" (extension file) ∈ supportedFormats))
    then (errors ++ ["Unsupported file format. Please upload a ZIP file containing shapefile components."])%list
    else errors in
  {| isValid := (length errors =? 0)%nat; errors := errors |}.

(** ** A planar implementation of the geometry library

    Used to run the service on examples.  [polygon] makes the checks of
    [turf.polygon] (every ring has four or more positions and ends where it
    starts); areas are planar (the shoelace sum over the ring, taken around
    the ring whether or not it is closed, zero for a ring of at most two
    positions and for a geometry that is not a polygon), where turf's are
    geodesic; a kink is a proper crossing of two edges of a ring.  An area
    is thus in squared units of the coordinates, where turf's is in square
    metres: what an example shows of the service holds with turf for the
    geometries that the two measures place on the same side of the bounds
    of the validator. *)

Module Planar.

Definition Point : Type := float * float.

Definition position (v : JsValue) : option Point :=
  match v with
  | JsArray (JsNumber x :: JsNumber y :: _) => Some (x, y)
  | _ => None
  end.

Definition ring (v : JsValue) : option (list Point) :=
  match v with
  | JsArray positions => mapM position positions
  | _ => None
  end.

Definition rings (coordinates : JsValue) : option (list (list Point)) :=
  match coordinates with
  | JsArray items => mapM ring items
  | _ => None
  end.

Definition checkRing (r : list Point) : Exc unit :=
  if (length r <? 4)%nat
  then Throw "Each LinearRing of a Polygon must have 4 or more Positions."
  else
    match head r, last r with
    | Some (x0, y0), Some (x1, y1) =>
      if ((x0 =? x1) && (y0 =? y1))%float then Return tt
      else Throw "First and last Position are not equivalent."
    | _, _ => Throw "First and last Position are not equivalent."
    end.

Fixpoint checkRings (rs : list (list Point)) : Exc unit :=
  match rs with
  | [] => Return tt
  | r :: rest =>
    match checkRing r with
    | Return _ => checkRings rest
    | Throw e => Throw e
    end
  end.

Definition polygon (coordinates : JsValue) : Exc GeoJSON.Feature :=
  match rings coordinates with
  | None => Throw "coordinates must be an array of rings of positions"
  | Some rs =>
    match checkRings rs with
    | Return _ =>
      Return {|
        GeoJSON.geometry :=
          Some {| GeoJSON.type := "Polygon"; GeoJSON.coordinates := coordinates |};
        GeoJSON.properties := Some ∅
      |}
    | Throw e => Throw e
    end
  end.

Definition cross (p q : Point) : float := (p.1 * q.2 - q.1 * p.2)%float.

Fixpoint shoelace (first : Point) (r : list Point) : float :=
  match r with
  | [] => 0%float
  | p :: rest =>
    match rest with
    | [] => cross p first
    | q :: _ => (cross p q + shoelace first rest)%float
    end
  end.

Definition ringArea (r : list Point) : float :=
  match r with
  | [] => 0%float
  | first :: _ =>
    if (length r <=? 2)%nat then 0%float
    else (abs (shoelace first r) / 2)%float
  end.

Definition polygonArea (rs : list (list Point)) : float :=
  match rs with
  | [] => 0%float
  | exterior :: holes =>
    foldl (λ total hole, total - ringArea hole)%float (ringArea exterior) holes
  end.

Definition geometryArea (geometry : option GeoJSON.Geometry) : Exc float :=
  match geometry with
  | None => Throw "Cannot read properties of null (reading 'type')"
  | Some g =>
    if String.eqb (GeoJSON.type g) "Polygon" then
      match rings (GeoJSON.coordinates g) with
      | Some rs => Return (polygonArea rs)
      | None => Throw "coordinates must be an array of rings of positions"
      end
    else Return 0%float
  end.

Definition area (f : GeoJSON.Feature) : Exc float :=
  geometryArea (GeoJSON.geometry f).

Definition orient (p q r : Point) : float :=
  ((q.1 - p.1) * (r.2 - p.2) - (q.2 - p.2) * (r.1 - p.1))%float.

Definition crossing (e1 e2 : Point * Point) : option Point :=
  let '(a, b) := e1 in
  let '(c, d) := e2 in
  let d1 := orient c d a in
  let d2 := orient c d b in
  if ((d1 * d2 <? 0) && (orient a b c * orient a b d <? 0))%float
  then
    let t := (d1 / (d1 - d2))%float in
    Some (a.1 + t * (b.1 - a.1), a.2 + t * (b.2 - a.2))%float
  else None.

Fixpoint edges (r : list Point) : list (Point * Point) :=
  match r with
  | [] => []
  | p :: rest =>
    match rest with
    | [] => []
    | q :: _ => (p, q) :: edges rest
    end
  end.

Fixpoint crossings (es : list (Point * Point)) : list Point :=
  match es with
  | [] => []
  | e :: rest => (omap (crossing e) rest ++ crossings rest)%list
  end.

Definition pointFeature (p : Point) : GeoJSON.Feature :=
  {| GeoJSON.geometry :=
       Some {| GeoJSON.type := "Point";
               GeoJSON.coordinates := JsArray [JsNumber p.1; JsNumber p.2] |};
     GeoJSON.properties := Some ∅ |}.

Definition featureRings (f : GeoJSON.Feature) : Exc (list (list Point)) :=
  match GeoJSON.geometry f with
  | None => Throw "Cannot read properties of null (reading 'type')"
  | Some g =>
    match rings (GeoJSON.coordinates g) with
    | Some rs => Return rs
    | None => Throw "coordinates must be an array of rings of positions"
    end
  end.

Definition kinks (f : GeoJSON.Feature) : Exc GeoJSON.FeatureCollection :=
  match featureRings f with
  | Return rs =>
    Return {| GeoJSON.features :=
                map pointFeature (concat (map (λ r, crossings (edges r)) rs)) |}
  | Throw e => Throw e
  end.

Definition booleanValid (f : GeoJSON.Feature) : Exc bool :=
  match featureRings f with
  | Return rs =>
    Return (forallb (λ r, (length (crossings (edges r)) =? 0)%nat) rs
            && (0 <? polygonArea rs)%float)
  | Throw e => Throw e
  end.

Definition extend (box : option (list float)) (p : Point) : option (list float) :=
  match box with
  | Some [west; south; east; north] =>
    Some [if (p.1 <? west)%float then p.1 else west;
          if (p.2 <? south)%float then p.2 else south;
          if (east <? p.1)%float then p.1 else east;
          if (north <? p.2)%float then p.2 else north]
  | _ => Some [p.1; p.2; p.1; p.2]
  end.

Definition bbox (collection : GeoJSON.FeatureCollection) : Exc (list float) :=
  let points f :=
    match featureRings f with
    | Return rs => concat rs
    | Throw _ => []
    end in
  match foldl extend None (concat (map points (GeoJSON.features collection))) with
  | Some box => Return box
  | None => Return [infinity; infinity; neg_infinity; neg_infinity]
  end.

Definition bboxPolygon (box : list float) : Exc GeoJSON.Feature :=
  match box with
  | [west; south; east; north] =>
    let position (x y : float) := JsArray [JsNumber x; JsNumber y] in
    polygon (JsArray [JsArray [
      position west south; position east south; position east north;
      position west north; position west south]])
  | _ => Throw "bbox must have four numbers"
  end.

Definition turf : Turf := {|
  turf_polygon := polygon;
  turf_booleanValid := booleanValid;
  turf_kinks := kinks;
  turf_area := area;
  turf_bbox := bbox;
  turf_bboxPolygon := bboxPolygon
|}.

(** A runtime for the examples: the clock starts at a fixed instant and
    advances one millisecond per reading; the random source repeats
    0.25, 0.5, 0.75, which base 36 writes 0.9, 0.i and 0.r; a geometry is
    rendered by its type alone. *)
Definition runtime : Runtime := {|
  Date_now := λ k, (1700000000000 + N.of_nat k)%N;
  Math_random := λ k,
    match k mod 3 with
    | 0 => 0.25%float
    | 1 => 0.5%float
    | _ => 0.75%float
    end;
  Number_toString36 := λ x,
    if (x =? 0.25)%float then "0.9"
    else if (x =? 0.5)%float then "0.i"
    else if (x =? 0.75)%float then "0.r"
    else "0";
  JSON_stringify := λ geometry,
    match geometry with
    | None => "null"
    | Some g => "{type:" +:+ GeoJSON.type g +:+ "}"
    end
|}.

End Planar.

(** ** Example inputs *)

Module Examples.

Definition position (x y : float) : JsValue := JsArray [JsNumber x; JsNumber y].

Definition polygonOf (ring : list JsValue) : GeoJSON.Geometry :=
  {| GeoJSON.type := "Polygon"; GeoJSON.coordinates := JsArray [JsArray ring] |}.

(** A square of side 10. *)
Definition square : GeoJSON.Geometry :=
  polygonOf [position 0 0; position 10 0; position 10 10; position 0 10; position 0 0].

(** A bow-tie: its two diagonals cross at (5, 5). *)
Definition bowtie : GeoJSON.Geometry :=
  polygonOf [position 0 0; position 10 10; position 10 0; position 0 10; position 0 0].

(** A ring of three positions, there and back: it encloses nothing and is
    one position short of a linear ring. *)
Definition sliver : GeoJSON.Geometry :=
  polygonOf [position 0 0; position 1 0; position 0 0].

Definition point : GeoJSON.Geometry :=
  {| GeoJSON.type := "Point"; GeoJSON.coordinates := position 1 2 |}.

(** A strip along the parallel of 89.98 degrees up to the 90th, 100 degrees
    long and 0.02 degrees wide.  It measures 2 in units of the coordinates
    and, on the sphere of the library, about 4.3 square kilometres: between
    the bounds of the validator either way. *)
Definition strip : GeoJSON.Geometry :=
  polygonOf [position 0 89.98; position 100 89.98; position 100 90; position 0 90;
             position 0 89.98].

Definition featureOf (g : GeoJSON.Geometry) (properties : gmap string JsValue)
  : GeoJSON.Feature :=
  {| GeoJSON.geometry := Some g; GeoJSON.properties := Some properties |}.

Definition shapefile (features : list GeoJSON.Feature) : ShapefileData :=
  {| features := features;
     projection := None;
     bounds := None;
     metadata := {| fileCount := 0; hasProjection := false |} |}.

Definition start : Counters := {| now_calls := 0; random_calls := 0 |}.

Definition package (entries : list string) : File :=
  {| name := "parcels.zip"; size := 2048; archive := Return entries |}.

End Examples.

(** ** Vocabulary of the properties *)

(** The reasons of the four rules that follow the geometry-type rule, in the
    order the rules are listed. *)
Definition triggeredReasons (valid : bool) (kinks : nat) (area : float) : list string :=
  ((if valid then [] else ["Invalid polygon geometry"]) ++
   (if (0 <? kinks)%nat then ["Polygon has self-intersections"] else []) ++
   (if (area <? 1)%float then ["Area too small"] else []) ++
   (if (10000000 <? area)%float then ["Area too large"] else []))%list.

(** [value] is what is read under [aliases], names compared as written: the
    value of the first alias, in the order listed, whose value is truthy,
    whatever the later aliases hold; when no alias has a truthy value, the
    value under the last one. *)
Definition readUnder (properties : gmap string JsValue) (aliases : list string)
    (value : JsValue) : Prop :=
  ∃ before alias after,
    aliases = (before ++ alias :: after)%list ∧
    Forall (λ earlier, truthy (prop properties earlier) = false) before ∧
    value = prop properties alias ∧
    (truthy value = true ∨ after = []).

(** Some entry of the package has a name that ends, in lower case, with
    [suffix]. *)
Definition hasEntry (suffix : string) (files : list string) : bool :=
  existsb (λ name, endsWith (toLowerCase name) suffix) files.

(** The extensions [validateFile] lets through. *)
Definition acceptedExtensions : list string :=
  ["zip"; "shp"; "shx"; "dbf"; "prj"; "cpg"].

Section Records.
Context {T : Turf} {R : Runtime}.

(** The features the loop pushes: the area is computed and the geometry
    passes validation. *)
Definition accepted (feature : GeoJSON.Feature) : bool :=
  is_Return (turf_area feature) &&
  isValid (validateGeometry (GeoJSON.geometry feature)).

(** [plotData] is the record built from [feature] with the counters at
    [s]. *)
Definition recordOf (feature : GeoJSON.Feature) (s : Counters)
    (plotData : ParsedPlotData) : Prop :=
  let properties := default ∅ (GeoJSON.properties feature) in
  (plotCode properties s).1 = Return (plot_code plotData) ∧
  geometry plotData = JSON_stringify (GeoJSON.geometry feature) ∧
  turf_area feature = Return (area_sqm plotData) ∧
  land_use plotData =
    js_or (js_or (js_or (prop properties "LAND_USE") (prop properties "land_use"))
                 (prop properties "USE"))
          (prop properties "TYPE") ∧
  owner_name plotData =
    js_or (js_or (prop properties "OWNER") (prop properties "owner"))
          (prop properties "OWNER_NAME") ∧
  price_usd plotData =
    js_or (js_or (prop properties "PRICE_USD") (prop properties "price"))
          (prop properties "VALUE") ∧
  notes plotData =
    js_or (js_or (prop properties "NOTES") (prop properties "notes"))
          (prop properties "REMARKS") ∧
  attributes plotData = properties.

(** [plotsData] holds, in order, one record for each accepted feature. *)
Definition batchOf (features : list GeoJSON.Feature)
    (plotsData : list ParsedPlotData) : Prop :=
  Forall2 (λ feature plotData, ∃ s, recordOf feature s plotData)
    (filter (λ feature, accepted feature = true) features) plotsData.

End Records.

(** ** PlotService.validatePlotGeometry (services/plotService.ts) *)

Section PlotValidation.
Context {T : Turf}.

(** The body of the [try] block. *)
Definition validatePlotGeometry_try (geometry : option GeoJSON.Geometry)
  : M (list string) ValidationResult :=
  let reject :=
    do push "Geometry must be a valid Polygon" in
    result (λ _, false) in
  match geometry with
  | None => reject
  | Some g =>
    if negb (String.eqb (GeoJSON.type g) "Polygon") then reject
    else
      let* polygon := lift (turf_polygon (GeoJSON.coordinates g)) in
      let* valid := lift (turf_booleanValid polygon) in
      do when (negb valid) (push "Invalid polygon geometry") in
      let* kinks := lift (turf_kinks polygon) in
      do when (0 <? length (GeoJSON.features kinks))%nat
           (push "Polygon has self-intersections") in
      let* area := lift (turf_area polygon) in
      do when (area <? 1)%float (push "Plot area is too small (< 1 sq meter)") in
      do when (10000000 <? area)%float (push "Plot area is too large (> 10 sq km)") in
      result (λ errors, (length errors =? 0)%nat)
  end.

Definition validatePlotGeometry (geometry : option GeoJSON.Geometry) : ValidationResult :=
  let catch (_ : string) :=
    do push "Invalid geometry format" in
    result (λ _, false) in
  match try_catch (validatePlotGeometry_try geometry) catch [] with
  | (Return r, _) => r
  | (Throw _, errors) => {| isValid := false; errors := errors |}
  end.

End PlotValidation.

(** The wording [validatePlotGeometry] uses for a reason of
    [validateGeometry]. *)
Definition plotReason (reason : string) : string :=
  if String.eqb reason "Geometry must be a Polygon"
  then "Geometry must be a valid Polygon"
  else if String.eqb reason "Area too small"
  then "Plot area is too small (< 1 sq meter)"
  else if String.eqb reason "Area too large"
  then "Plot area is too large (> 10 sq km)"
  else reason.

(** ** More vocabulary *)

Section MoreVocabulary.
Context {T : Turf}.

(** The features for which the loop of [convertToPlotData] makes up a plot
    code: the area is computed and none of the three plot-code attributes is
    truthy.  Whether the geometry then passes plays no part. *)
Definition synthesizes (feature : GeoJSON.Feature) : bool :=
  let properties := default ∅ (GeoJSON.properties feature) in
  is_Return (turf_area feature) &&
  negb (truthy (js_or (js_or (prop properties "PLOT_CODE") (prop properties "plot_code"))
                      (prop properties "ID"))).

End MoreVocabulary.

Section SynthesizedCodes.
Context {R : Runtime}.

(** The random part of a made-up plot code, from the [j]-th random number. *)
Definition randomSuffix (j : nat) : string :=
  substring 2 9 (Number_toString36 (Math_random j)).

(** The plot code made up from the [k]-th reading of the clock and the
    [j]-th random number. *)
Definition synthesizedAt (k j : nat) : JsValue :=
  JsString ("PLOT_" +:+ pretty (Date_now k) +:+ "_" +:+ randomSuffix j).

End SynthesizedCodes.

(** Strings made of decimal digits. *)
Definition is_digit (c : ascii) : bool :=
  (48 <=? nat_of_ascii c)%nat && (nat_of_ascii c <=? 57)%nat.

Fixpoint digits_only (s : string) : bool :=
  match s with
  | "" => true
  | String c rest => is_digit c && digits_only rest
  end.

(** Strings in which the character [c] occurs. *)
Fixpoint occurs (c : ascii) (s : string) : bool :=
  match s with
  | "" => false
  | String a rest => Ascii.eqb a c || occurs c rest
  end.

(** ** Errors, the backend and the uploads (lib/supabase.ts, shapefileService.ts) *)

(** What a [catch] block receives: an [Error] made by [new Error(message)],
    or an error object handed back by the backend, with its [code]. *)
Module Thrown.

Record t : Type := {
  code : option string;
  message : string;
  isError : bool
}.

End Thrown.

(** [new Error(message)] *)
Definition newError (message : string) : Thrown.t :=
  {| Thrown.code := None; Thrown.message := message; Thrown.isError := true |}.

(** [error.code === code] *)
Definition hasCode (error : Thrown.t) (code : string) : bool :=
  match Thrown.code error with
  | Some c => String.eqb c code
  | None => false
  end.

(** [handleSupabaseError]; the console output is not modelled. *)
Definition handleSupabaseError (error : Thrown.t) : string :=
  if hasCode error "PGRST116" then "No data found"
  else if hasCode error "23505" then "This record already exists"
  else if hasCode error "23503" then "Referenced record not found"
  else if hasCode error "42501" then "Permission denied"
  else if negb (String.eqb (Thrown.message error) "") then Thrown.message error
  else "An unexpected error occurred".

(** A computation that returns or throws an error object. *)
Inductive Outcome (A : Type) : Type :=
| Done (a : A)
| Raised (error : Thrown.t).
Arguments Done {A} a.
Arguments Raised {A} error.

Definition MT (S A : Type) : Type := S → Outcome A * S.

Definition retT {S A} (a : A) : MT S A := λ s, (Done a, s).

Definition raise {S A} (error : Thrown.t) : MT S A := λ s, (Raised error, s).

Definition bindT {S A B} (m : MT S A) (k : A → MT S B) : MT S B :=
  λ s, match m s with
       | (Done a, s') => k a s'
       | (Raised e, s') => (Raised e, s')
       end.

Definition try_catchT {S A} (body : MT S A) (handler : Thrown.t → MT S A) : MT S A :=
  λ s, match body s with
       | (Done a, s') => (Done a, s')
       | (Raised e, s') => handler e s'
       end.

(** The functions of the service throw [Error]s: a [Throw message] is
    [new Error(message)]. *)
Definition raising {S A} (m : M S A) : MT S A :=
  λ s, match m s with
       | (Return a, s') => (Done a, s')
       | (Throw message, s') => (Raised (newError message), s')
       end.

(** [catch (error) { throw new Error(handleSupabaseError(error)) }] *)
Definition rethrown {S A} (m : MT S A) : M S A :=
  λ s, match m s with
       | (Done a, s') => (Return a, s')
       | (Raised e, s') => (Throw (handleSupabaseError e), s')
       end.

Notation "'let+' x ':=' m 'in' k" := (bindT m (λ x, k))
  (at level 10, x name, m at level 100, k at level 200, only parsing).
Notation "'do+' m 'in' k" := (bindT m (λ _, k))
  (at level 10, m at level 100, k at level 200, only parsing).

(** The row the upload inserts into [shapefile_imports]. *)
Record ShapefileImportInsert : Type := {
  filename : string;
  original_filename : string;
  uploaded_by : string;
  file_size : N;
  insert_status : string
}.

(** The answer of [bulk_import_plots], as the SQL function builds it. *)
Record BulkImportResult : Type := {
  imported_count : N;
  error_count : N;
  import_errors : list string
}.

(** A row of [shapefile_imports] as [getImportStatistics] selects it.  The
    counts are whole numbers, for which the sum of doubles is exact; a count
    that is [null] is [None]. *)
Inductive ImportStatus : Type :=
| processing
| completed
| failed.

Record ImportSummary : Type := {
  status : ImportStatus;
  plots_count : option N;
  created_at : string
}.

(** What the service asks of the backend. *)
Inductive Request : Type :=
| InsertImport (importData : ShapefileImportInsert)
| MarkImportFailed (id : string) (error_message : string)
| BulkImportPlots (plots_data : list ParsedPlotData) (import_id : string)
| DeletePlotsOfImport (import_id : string)
| DeleteImport (id : string)
| SelectImportSummaries.

(** An answer [{ data, error }] in which one of the two is set. *)
Inductive Response (A : Type) : Type :=
| Data (data : A)
| Failed (error : Thrown.t).
Arguments Data {A} data.
Arguments Failed {A} error.

(** The backend: what it answers to a request, given the requests made
    before.  The inserted row is known by its [id]. *)
Class Supabase : Type := {
  insert_import : list Request → ShapefileImportInsert → Response string;
  rpc_bulk_import_plots :
    list Request → list ParsedPlotData → string → Response BulkImportResult;
  delete_plots : list Request → string → option Thrown.t;
  delete_import : list Request → string → option Thrown.t;
  select_import_summaries : list Request → Response (list ImportSummary)
}.

(** Dates: the time value of [new Date(text)], which is NaN when the text is
    not a date, and the time value of a date made at the reading [now] of the
    clock once [setDate(getDate() - 7)] has moved it back seven days. *)
Class Calendar : Type := {
  Date_parse : string → float;
  sevenDaysBefore : N → float
}.

(** What [getImportStatistics] returns. *)
Record ImportStatistics : Type := {
  total_imports : nat;
  successful_imports : nat;
  failed_imports : nat;
  processing_imports : nat;
  total_plots_imported : N;
  recent_imports : nat
}.

(** The counters of the runtime and the requests made so far. *)
Record World : Type := {
  counters : Counters;
  requests : list Request
}.

(** What [uploadShapefile] resolves to. *)
Record UploadResult : Type := {
  importId : string;
  upload_message : string
}.

Section Uploads.
Context {T : Turf} {R : Runtime} {B : Supabase}.

(** A computation of the service, run in the world. *)
Definition inWorld {A} (m : M Counters A) : MT World A :=
  λ w, match m (counters w) with
       | (Return a, c) => (Done a, {| counters := c; requests := requests w |})
       | (Throw message, c) =>
         (Raised (newError message), {| counters := c; requests := requests w |})
       end.

(** A request is recorded and answered. *)
Definition ask {A} (request : Request) (answer : list Request → A) : MT World A :=
  λ w, (Done (answer (requests w)),
        {| counters := counters w; requests := (requests w ++ [request])%list |}).

(** [transactionHelpers.bulkImportPlots] *)
Definition bulkImportPlots (plotsData : list ParsedPlotData) (importId : string)
  : MT World BulkImportResult :=
  let+ response :=
    ask (BulkImportPlots plotsData importId)
        (λ before, rpc_bulk_import_plots before plotsData importId) in
  match response with
  | Failed error => raise error
  | Data data => retT data
  end.

(** [uploadShapefile] *)
Definition uploadShapefile (file : File) (userId : string) : M World UploadResult :=
  rethrown
    (let+ now := inWorld date_now in
     let importData := {|
       filename := pretty now +:+ "_" +:+ name file;
       original_filename := name file;
       uploaded_by := userId;
       file_size := size file;
       insert_status := "processing"
     |} in
     let+ inserted :=
       ask (InsertImport importData) (λ before, insert_import before importData) in
     match inserted with
     | Failed importError => raise importError
     | Data importRecord_id =>
       try_catchT
         (let+ shapefileData := inWorld (parseShapefileFromZip file) in
          let+ plotsData := inWorld (convertToPlotData shapefileData) in
          let+ result := bulkImportPlots plotsData importRecord_id in
          retT {|
            importId := importRecord_id;
            upload_message :=
              "Successfully imported " +:+ pretty (imported_count result) +:+ " plots"
          |})
         (λ processingError,
            do+ ask (MarkImportFailed importRecord_id
                       (if Thrown.isError processingError
                        then Thrown.message processingError
                        else "Processing failed"))
                    (λ _, tt) in
            raise processingError)
     end).

(** [deleteShapefileImport] *)
Definition deleteShapefileImport (id : string) : M World unit :=
  rethrown
    (let+ plotsError := ask (DeletePlotsOfImport id) (λ before, delete_plots before id) in
     match plotsError with
     | Some error => raise error
     | None =>
       let+ importError := ask (DeleteImport id) (λ before, delete_import before id) in
       match importError with
       | Some error => raise error
       | None => retT tt
       end
     end).

(** The callback of the last [filter] of [getImportStatistics]: it makes a
    date of its own for every row. *)
Definition isRecent {C : Calendar} (i : ImportSummary) : M Counters bool :=
  let importDate := Date_parse (created_at i) in
  let* now := date_now in
  let weekAgo := sevenDaysBefore now in
  ret (weekAgo <? importDate)%float.

(** [data.filter(callback)] for a callback that reads the clock. *)
Fixpoint filterM {A} (callback : A → M Counters bool) (data : list A)
  : M Counters (list A) :=
  match data with
  | [] => ret []
  | i :: rest =>
    let* keep := callback i in
    let* kept := filterM callback rest in
    ret (if keep then i :: kept else kept)
  end.

Definition statusIs (wanted : ImportStatus) (i : ImportSummary) : bool :=
  match wanted, status i with
  | processing, processing | completed, completed | failed, failed => true
  | _, _ => false
  end.

(** [getImportStatistics] *)
Definition getImportStatistics {C : Calendar} : M World ImportStatistics :=
  rethrown
    (let+ response :=
       ask SelectImportSummaries (λ before, select_import_summaries before) in
     match response with
     | Failed error => raise error
     | Data data =>
       let+ recent := inWorld (filterM isRecent data) in
       retT {|
         total_imports := length data;
         successful_imports := length (List.filter (statusIs completed) data);
         failed_imports := length (List.filter (statusIs failed) data);
         processing_imports := length (List.filter (statusIs processing) data);
         total_plots_imported :=
           foldl (λ sum i, sum + default 0 (plots_count i))%N 0%N data;
         recent_imports := length recent
       |}
     end).

End Uploads.

(** ** The upload screen (components/Admin/EnhancedShapefileUpload.tsx) *)

(** [text.match(/\d+/)?.[0]]: the first run of digits, if there is a digit. *)
Fixpoint takeDigits (s : string) : string :=
  match s with
  | "" => ""
  | String c rest => if is_digit c then String c (takeDigits rest) else ""
  end.

Fixpoint firstDigits (s : string) : option string :=
  match s with
  | "" => None
  | String c rest => if is_digit c then Some (takeDigits s) else firstDigits rest
  end.

(** [parseInt] of a text that starts with a digit: the number written by its
    leading digits.  Counts stay below 2^53, where doubles are exact. *)
Fixpoint leadingNumber (value : N) (s : string) : N :=
  match s with
  | "" => value
  | String c rest =>
    if is_digit c
    then leadingNumber (value * 10 + N.of_nat (nat_of_ascii c - 48)) rest
    else value
  end.

Definition parseInt (s : string) : N := leadingNumber 0 s.

(** [parseInt(result.message.match(/\d+/)?.[0] || '0')] *)
Definition plotsCountOf (message : string) : N :=
  parseInt (default "0" (firstDigits message)).

Section UploadVocabulary.
Context {R : Runtime}.

(** The row [uploadShapefile] inserts for [file] when the world is [w]. *)
Definition importRow (file : File) (userId : string) (w : World) : ShapefileImportInsert :=
  {| filename := pretty (Date_now (now_calls (counters w))) +:+ "_" +:+ name file;
     original_filename := name file;
     uploaded_by := userId;
     file_size := size file;
     insert_status := "processing" |}.

(** The counters once the clock has been read for the file name. *)
Definition afterClock (w : World) : Counters :=
  {| now_calls := S (now_calls (counters w));
     random_calls := random_calls (counters w) |}.

End UploadVocabulary.


(** ** The upload screen *)

(** The signed-in user, of which the screen reads the id. *)
Module User.
Record t : Type := { id : string }.
End User.

(** An entry of the list the screen shows.  Its status is one of the texts
    uploading, processing, completed and error. *)
Module UploadedFile.
Record t : Type := {
  id : string;
  name : string;
  size : N;
  status : string;
  progress : N;
  plotsCount : option N;
  error : option string;
  importId : option string
}.
End UploadedFile.

(** [Number.prototype.toString()], in base ten, of the host. *)
Class Numbers : Type := {
  Number_toString : float → string
}.

(** The list the component keeps in its state, and the world its calls act
    on. *)
Record Screen : Type := {
  files : list UploadedFile.t;
  world : World
}.

Section UploadScreen.
Context {T : Turf} {R : Runtime} {B : Supabase} {D : Numbers}.

(** [setFiles(update)] with an updater function. *)
Definition setFiles (update : list UploadedFile.t → list UploadedFile.t) : M Screen unit :=
  λ σ, (Return tt, {| files := update (files σ); world := world σ |}).

(** A call of the service, made from the screen. *)
Definition outside {A} (call : M World A) : M Screen A :=
  λ σ, match call (world σ) with
       | (r, w) => (r, {| files := files σ; world := w |})
       end.

(** A reading of the clock or of the random source, made from the screen. *)
Definition reading {A} (m : M Counters A) : M Screen A :=
  outside (λ w, match m (counters w) with
                | (r, c) => (r, {| counters := c; requests := requests w |})
                end).

(** [items.map(callback)] for a callback that acts on the state. *)
Fixpoint arrayMap {S A B} (callback : A → M S B) (items : list A) : M S (list B) :=
  match items with
  | [] => ret []
  | item :: rest =>
    let* b := callback item in
    let* bs := arrayMap callback rest in
    ret (b :: bs)
  end.

(** The callback of [acceptedFiles.map] in [onDrop]: the entry made for a
    dropped file. *)
Definition newFile (file : File) : M Screen UploadedFile.t :=
  let* now := reading date_now in
  let* random := reading math_random in
  ret {|
    UploadedFile.id := pretty now +:+ Number_toString random;
    UploadedFile.name := name file;
    UploadedFile.size := size file;
    UploadedFile.status := "uploading";
    UploadedFile.progress := 0;
    UploadedFile.plotsCount := None;
    UploadedFile.error := None;
    UploadedFile.importId := None
  |}.

(** [prev.map(f => f.id === fileId ? update(f) : f)] *)
Definition change (fileId : string) (update : UploadedFile.t → UploadedFile.t)
  : list UploadedFile.t → list UploadedFile.t :=
  map (λ f, if String.eqb (UploadedFile.id f) fileId then update f else f).

(** [{ ...f, status: 'error', error: text }] *)
Definition failedWith (text : string) (f : UploadedFile.t) : UploadedFile.t :=
  {| UploadedFile.id := UploadedFile.id f;
     UploadedFile.name := UploadedFile.name f;
     UploadedFile.size := UploadedFile.size f;
     UploadedFile.status := "error";
     UploadedFile.progress := UploadedFile.progress f;
     UploadedFile.plotsCount := UploadedFile.plotsCount f;
     UploadedFile.error := Some text;
     UploadedFile.importId := UploadedFile.importId f |}.

(** [{ ...f, progress: 50, status: 'processing' }] *)
Definition inProgress (f : UploadedFile.t) : UploadedFile.t :=
  {| UploadedFile.id := UploadedFile.id f;
     UploadedFile.name := UploadedFile.name f;
     UploadedFile.size := UploadedFile.size f;
     UploadedFile.status := "processing";
     UploadedFile.progress := 50;
     UploadedFile.plotsCount := UploadedFile.plotsCount f;
     UploadedFile.error := UploadedFile.error f;
     UploadedFile.importId := UploadedFile.importId f |}.

(** [{ ...f, status: 'completed', progress: 100, importId: result.importId,
       plotsCount: parseInt(result.message.match(/\d+/)?.[0] || '0') }] *)
Definition completedWith (result : UploadResult) (f : UploadedFile.t) : UploadedFile.t :=
  {| UploadedFile.id := UploadedFile.id f;
     UploadedFile.name := UploadedFile.name f;
     UploadedFile.size := UploadedFile.size f;
     UploadedFile.status := "completed";
     UploadedFile.progress := 100;
     UploadedFile.plotsCount := Some (plotsCountOf (upload_message result));
     UploadedFile.error := UploadedFile.error f;
     UploadedFile.importId := Some (importId result) |}.

(** The body of the loop of [onDrop] for one file.  What is caught is what
    [uploadShapefile] throws, always an [Error], of which the message is
    shown. *)
Definition processFile (userId fileId : string) (file : File) : M Screen unit :=
  try_catch
    (let validation := validateFile file in
     if negb (isValid validation)
     then setFiles (change fileId (failedWith (String.concat ", " (errors validation))))
     else
       do setFiles (change fileId inProgress) in
       let* result := outside (uploadShapefile file userId) in
       setFiles (change fileId (completedWith result)))
    (λ message, setFiles (change fileId (failedWith message))).

(** The loop of [onDrop] over [acceptedFiles.entries()], from [index] on;
    reading the id of an entry that does not exist throws. *)
Fixpoint processFiles (userId : string) (newFiles : list UploadedFile.t) (index : nat)
    (acceptedFiles : list File) : M Screen unit :=
  match acceptedFiles with
  | [] => ret tt
  | file :: rest =>
    match newFiles !! index with
    | None => throw "Cannot read properties of undefined (reading 'id')"
    | Some entry =>
      do processFile userId (UploadedFile.id entry) file in
      processFiles userId newFiles (S index) rest
    end
  end.

(** [onDrop], run with no other event between its steps. *)
Definition onDrop (user : option User.t) (acceptedFiles : list File) : M Screen unit :=
  match user with
  | None => ret tt
  | Some user =>
    let* newFiles := arrayMap newFile acceptedFiles in
    do setFiles (λ prev, (prev ++ newFiles)%list) in
    processFiles (User.id user) newFiles 0 acceptedFiles
  end.

(** The id made for the file dropped at [index] when the counters are [c]. *)
Definition idAt (c : Counters) (index : nat) : string :=
  pretty (Date_now (now_calls c + index)) +:+
  Number_toString (Math_random (random_calls c + index)).

(** The loop of [onDrop] over the files paired with the ids of their
    entries. *)
Fixpoint processEach (userId : string) (pairs : list (File * string)) : M Screen unit :=
  match pairs with
  | [] => ret tt
  | (file, fileId) :: rest =>
    do processFile userId fileId file in
    processEach userId rest
  end.

End UploadScreen.

(** An entry that is done with: completed or in error. *)
Definition settled (f : UploadedFile.t) : Prop :=
  UploadedFile.status f = "completed" ∨ UploadedFile.status f = "error".

Definition isInsertImport (request : Request) : bool :=
  match request with
  | InsertImport _ => true
  | _ => false
  end.

Section ScreenVocabulary.
Context {R : Runtime} {D : Numbers}.

(** The entry [onDrop] makes for the file dropped at [index] when the
    counters are [c]. *)
Definition entryAt (c : Counters) (index : nat) (file : File) : UploadedFile.t :=
  {| UploadedFile.id := idAt c index;
     UploadedFile.name := name file;
     UploadedFile.size := size file;
     UploadedFile.status := "uploading";
     UploadedFile.progress := 0;
     UploadedFile.plotsCount := None;
     UploadedFile.error := None;
     UploadedFile.importId := None |}.

(** The counters after [n] more readings of the clock and of the random
    source. *)
Definition advanced (c : Counters) (n : nat) : Counters :=
  {| now_calls := now_calls c + n; random_calls := random_calls c + n |}.

End ScreenVocabulary.

(** ** Example backends *)

Module Backends.

(** A backend that takes everything: the import gets the id import-1 and
    every plot of a batch is imported. *)
Definition accepting : Supabase := {|
  insert_import := λ _ _, Data "import-1";
  rpc_bulk_import_plots := λ _ plotsData _,
    Data {| imported_count := N.of_nat (length plotsData);
            error_count := 0;
            import_errors := [] |};
  delete_plots := λ _ _, None;
  delete_import := λ _ _, None;
  select_import_summaries := λ _,
    Data [{| status := completed; plots_count := Some 10%N;
             created_at := "2024-05-01T10:00:00Z" |};
          {| status := failed; plots_count := None;
             created_at := "not a date" |};
          {| status := processing; plots_count := Some 0%N;
             created_at := "2024-05-02T10:00:00Z" |}]
|}.

Definition denied : Thrown.t :=
  {| Thrown.code := Some "42501";
     Thrown.message := "new row violates row-level security policy";
     Thrown.isError := false |}.

(** A backend that refuses every write and every read. *)
Definition refusing : Supabase := {|
  insert_import := λ _ _, Failed denied;
  rpc_bulk_import_plots := λ _ _ _, Failed denied;
  delete_plots := λ _ _, Some denied;
  delete_import := λ _ _, Some denied;
  select_import_summaries := λ _, Failed denied
|}.

(** A backend that creates the import and then refuses the plots. *)
Definition refusingPlots : Supabase := {|
  insert_import := λ _ _, Data "import-1";
  rpc_bulk_import_plots := λ _ _ _, Failed denied;
  delete_plots := λ _ _, None;
  delete_import := λ _ _, Some denied;
  select_import_summaries := λ _, Data []
|}.

(** Dates for the examples: the two dated rows are read as 10 and 20, the
    other text is not a date, and a week before any reading is 15. *)
Definition calendar : Calendar := {|
  Date_parse := λ text,
    if String.eqb text "2024-05-01T10:00:00Z" then 10%float
    else if String.eqb text "2024-05-02T10:00:00Z" then 20%float
    else nan;
  sevenDaysBefore := λ _, 15%float
|}.

Definition world : World := {| counters := Examples.start; requests := [] |}.

End Backends.

(** ** Example runs *)

Module Runs.

Definition parcels : File :=
  Examples.package ["parcels.shp"; "parcels.dbf"; "parcels.prj"].

Definition incomplete : File :=
  Examples.package ["parcels.shp"; "parcels.prj"].

(** Parsing [parcels] with the planar library. *)
Definition parsed : Exc ShapefileData * Counters :=
  @parseShapefileFromZip Planar.turf Planar.runtime parcels Examples.start.

Definition data : ShapefileData :=
  match parsed.1 with
  | Return shapefileData => shapefileData
  | Throw _ => Examples.shapefile []
  end.

(** Uploading [parcels] to the backend that takes everything. *)
Definition upload : Exc UploadResult * World :=
  @uploadShapefile Planar.turf Planar.runtime Backends.accepting
    parcels "user-1" Backends.world.

Definition uploaded : UploadResult :=
  match upload.1 with
  | Return result => result
  | Throw message => {| importId := ""; upload_message := message |}
  end.

(** The statistics of the three imports of the backend that takes
    everything. *)
Definition statistics : Exc ImportStatistics * World :=
  @getImportStatistics Planar.runtime Backends.accepting Backends.calendar
    Backends.world.

End Runs.

(** ** Example screens *)

Module Screens.

(** Numbers for the examples: the three values of the random source of the
    planar runtime, written in base ten. *)
Definition numbers : Numbers := {|
  Number_toString := λ x,
    if (x =? 0.25)%float then "0.25"
    else if (x =? 0.5)%float then "0.5"
    else if (x =? 0.75)%float then "0.75"
    else "0"
|}.

Definition user : User.t := {| User.id := "user-1" |}.

Definition notes : File :=
  {| name := "notes.txt"; size := 12; archive := Return [] |}.

(** An entry shown from an earlier drop. *)
Definition shown : UploadedFile.t :=
  {| UploadedFile.id := "earlier";
     UploadedFile.name := "old.zip";
     UploadedFile.size := 1;
     UploadedFile.status := "completed";
     UploadedFile.progress := 100;
     UploadedFile.plotsCount := Some 3%N;
     UploadedFile.error := None;
     UploadedFile.importId := Some "import-0" |}.

Definition screen : Screen := {| files := [shown]; world := Backends.world |}.

Definition dropped : list File := [Runs.parcels; notes].

(** Dropping a package and a text file on [screen]. *)
Definition drop : Exc unit * Screen :=
  @onDrop Planar.turf Planar.runtime Backends.accepting numbers
    (Some user) dropped screen.

End Screens.

(** ** Properties of validateGeometry *)

Section ValidationFacts.
Context {T : Turf}.

Lemma validateGeometry_null :
  validateGeometry None = {| isValid := false; errors := ["Geometry must be a Polygon"] |}.
Proof. reflexivity. Qed.

Lemma validateGeometry_other_type (g : GeoJSON.Geometry) :
  GeoJSON.type g ≠ "Polygon" →
  validateGeometry (Some g) =
    {| isValid := false; errors := ["Geometry must be a Polygon"] |}.
Proof.
  intros Hne. unfold validateGeometry, try_catch, validateGeometry_try.
  destruct (String.eqb_spec (GeoJSON.type g) "Polygon") as [Heq | _]; [done |].
  reflexivity.
Qed.

Lemma validateGeometry_checked (g : GeoJSON.Geometry) polygon valid kinks area :
  GeoJSON.type g = "Polygon" →
  turf_polygon (GeoJSON.coordinates g) = Return polygon →
  turf_booleanValid polygon = Return valid →
  turf_kinks polygon = Return kinks →
  turf_area polygon = Return area →
  validateGeometry (Some g) =
    let reasons := triggeredReasons valid (length (GeoJSON.features kinks)) area in
    {| isValid := (length reasons =? 0)%nat; errors := reasons |}.
Proof.
  intros Htype Hpolygon Hvalid Hkinks Harea.
  unfold validateGeometry, try_catch, validateGeometry_try, triggeredReasons.
  rewrite Htype. cbn [String.eqb Ascii.eqb Bool.eqb negb].
  unfold bind, lift.
  rewrite Hpolygon, Hvalid, Hkinks, Harea.
  destruct valid, (0 <? length (GeoJSON.features kinks))%nat,
    (area <? 1)%float, (10000000 <? area)%float; reflexivity.
Qed.

(** When a call of the library throws, the reasons pushed so far are kept
    and the format reason is added. *)
Lemma validateGeometry_polygon_throws (g : GeoJSON.Geometry) e :
  GeoJSON.type g = "Polygon" →
  turf_polygon (GeoJSON.coordinates g) = Throw e →
  validateGeometry (Some g) =
    {| isValid := false; errors := ["Invalid geometry format"] |}.
Proof.
  intros Htype Hpolygon.
  unfold validateGeometry, try_catch, validateGeometry_try.
  rewrite Htype. cbn [String.eqb Ascii.eqb Bool.eqb negb].
  unfold bind, lift. rewrite Hpolygon. reflexivity.
Qed.

End ValidationFacts.

(** ** Properties of convertToPlotData *)

Section ConversionFacts.
Context {T : Turf} {R : Runtime}.

Lemma plotCode_returns (properties : gmap string JsValue) (s : Counters) :
  ∃ code s', plotCode properties s = (Return code, s').
Proof.
  unfold plotCode. destruct (truthy _); [by eexists _, _ |].
  by eexists _, _.
Qed.

Lemma convertFeature_rejected (feature : GeoJSON.Feature) (s : Counters) :
  accepted feature = false →
  ∃ s', convertFeature feature s = (Return None, s').
Proof.
  unfold accepted, convertFeature, try_catch, convertFeature_try, bind, lift.
  intros Hno. destruct (turf_area feature) as [area | e]; [| by eexists].
  destruct (plotCode_returns (default ∅ (GeoJSON.properties feature)) s)
    as (code & s' & ->).
  simpl in Hno. rewrite Hno. by eexists.
Qed.

Lemma convertFeature_accepted (feature : GeoJSON.Feature) (s : Counters) :
  accepted feature = true →
  ∃ plotData s',
    convertFeature feature s = (Return (Some plotData), s') ∧
    recordOf feature s plotData.
Proof.
  unfold accepted, convertFeature, try_catch, convertFeature_try, bind, lift.
  intros Hyes. destruct (turf_area feature) as [area | e] eqn:Harea; [| done].
  destruct (plotCode_returns (default ∅ (GeoJSON.properties feature)) s)
    as (code & s' & Hcode).
  rewrite Hcode. simpl in Hyes. rewrite Hyes. simpl.
  eexists _, _. split; [done |].
  unfold recordOf. rewrite Hcode, Harea. simpl. done.
Qed.

Lemma convertLoop_batch (features : list GeoJSON.Feature) :
  ∀ plotsData s, ∃ pushed s',
    convertLoop features plotsData s = (Return (plotsData ++ pushed)%list, s') ∧
    batchOf features pushed.
Proof.
  unfold batchOf.
  induction features as [| feature rest IH]; intros plotsData s.
  - exists [], s. rewrite app_nil_r. split; [done | constructor].
  - cbn [convertLoop]. unfold bind at 1.
    destruct (accepted feature) eqn:Hacc.
    + destruct (convertFeature_accepted feature s Hacc)
        as (plotData & s1 & -> & Hrecord).
      destruct (IH (plotsData ++ [plotData])%list s1) as (pushed & s' & -> & Hrest).
      exists (plotData :: pushed), s'. split.
      * by rewrite <- app_assoc.
      * rewrite filter_cons_True by done. constructor; eauto.
    + destruct (convertFeature_rejected feature s Hacc) as (s1 & ->).
      destruct (IH plotsData s1) as (pushed & s' & -> & Hrest).
      exists pushed, s'. split; [done |].
      rewrite filter_cons_False by (rewrite Hacc; done). done.
Qed.

Lemma convertToPlotData_batch (shapefileData : ShapefileData) (s : Counters) :
  ∃ plotsData s',
    convertToPlotData shapefileData s = (Return plotsData, s') ∧
    batchOf (features shapefileData) plotsData.
Proof.
  destruct (convertLoop_batch (features shapefileData) [] s)
    as (pushed & s' & Hloop & Hbatch).
  by exists pushed, s'.
Qed.
End ConversionFacts.

(** ** Facts about the runtime's numbers *)

Lemma float_ltb_asym (x y : float) : (x <? y)%float = true → (y <? x)%float = false.
Proof.
  rewrite !FloatAxioms.ltb_spec. unfold SFltb.
  destruct (Prim2SF x) as [s1 | s1 | | s1 m1 e1], (Prim2SF y) as [s2 | s2 | | s2 m2 e2];
    simpl; try (destruct s1); try (destruct s2); try done.
  all: rewrite (Z.compare_antisym e1 e2); destruct (e1 ?= e2)%Z; simpl; try done.
  all: change (PosDef.Pos.compare_cont Eq m2 m1) with (m2 ?= m1)%positive.
  all: change (PosDef.Pos.compare_cont Eq m1 m2) with (m1 ?= m2)%positive.
  all: rewrite (Pos.compare_antisym m1 m2); by destruct (m1 ?= m2)%positive.
Qed.

(** ** The planar library meets the documented contract *)

Lemma planar_spec : TurfSpec Planar.turf.
Proof.
  split.
  - intros c p. cbn. unfold Planar.polygon.
    destruct (Planar.rings c); [| done].
    destruct (Planar.checkRings _); [| done].
    by intros [= <-].
  - intros f1 f2 Hgeometry. cbn. unfold Planar.area. by rewrite Hgeometry.
Qed.

(** ** The properties the specification states *)

(** Membership of a literal reason in a literal list of reasons. *)
Ltac reasons :=
  cbn [app];
  repeat match goal with
    | |- _ ∧ _ => split
    | |- _ ↔ _ => split; intros ?
    | H : _ ∈ [] |- _ => by apply elem_of_nil in H
    | H : _ ∈ _ :: _ |- _ => apply elem_of_cons in H as [H | H]; [discriminate H |]
    | |- _ ∈ _ :: _ => first [apply list_elem_of_here | apply list_elem_of_further]
    end;
  try done.

Section Claims.
Context {T : Turf} {R : Runtime}.

(** C1. A geometry of type Polygon that the validity check accepts, with no
    self-intersection and an area strictly between 1 and 10,000,000 square
    metres, is validated with [isValid = true] and no reason, and
    [convertToPlotData] puts the record of its feature in the batch. *)
Theorem valid_polygon_accepted {TS : TurfSpec T}
    (shapefileData : ShapefileData) (feature : GeoJSON.Feature)
    (g : GeoJSON.Geometry) (polygon : GeoJSON.Feature)
    (kinks : GeoJSON.FeatureCollection) (area : float) (s : Counters) :
  feature ∈ features shapefileData →
  GeoJSON.geometry feature = Some g →
  GeoJSON.type g = "Polygon" →
  turf_polygon (GeoJSON.coordinates g) = Return polygon →
  turf_booleanValid polygon = Return true →
  turf_kinks polygon = Return kinks →
  GeoJSON.features kinks = [] →
  turf_area polygon = Return area →
  (1 <? area)%float = true →
  (area <? 10000000)%float = true →
  validateGeometry (Some g) = {| isValid := true; errors := [] |} ∧
  ∃ plotsData s' plotData,
    convertToPlotData shapefileData s = (Return plotsData, s') ∧
    plotData ∈ plotsData ∧
    (∃ s0, recordOf feature s0 plotData) ∧
    area_sqm plotData = area.
Proof.
  intros Hin Hgeometry Htype Hpolygon Hvalid Hkinks Hnone Harea Hlow Hhigh.
  assert (Hok : validateGeometry (Some g) = {| isValid := true; errors := [] |}).
  { rewrite (validateGeometry_checked g polygon true kinks area) by done.
    unfold triggeredReasons. rewrite Hnone.
    by rewrite (float_ltb_asym _ _ Hlow), (float_ltb_asym _ _ Hhigh). }
  split; [done |].
  assert (Hsame : turf_area feature = Return area).
  { rewrite <- Harea. apply turf_area_geometry.
    rewrite Hgeometry, (turf_polygon_geometry _ _ Hpolygon).
    destruct g as [type coordinates]. simpl in *. by subst. }
  assert (Hacc : accepted feature = true).
  { unfold accepted. by rewrite Hsame, Hgeometry, Hok. }
  destruct (convertToPlotData_batch shapefileData s) as (plotsData & s' & Hrun & Hbatch).
  assert (Hkept : feature ∈ filter (λ f, accepted f = true) (features shapefileData)).
  { by apply list_elem_of_filter. }
  apply list_elem_of_lookup in Hkept as [i Hi].
  destruct (Forall2_lookup_l _ _ _ _ _ Hbatch Hi) as (plotData & Hj & s0 & Hrecord).
  exists plotsData, s', plotData. repeat split; [done | | by exists s0 |].
  - by eapply list_elem_of_lookup_2.
  - destruct Hrecord as (_ & _ & Harea' & _). rewrite Hsame in Harea'. by injection Harea'.
Qed.

(** C2, amended. For a geometry of type Polygon on which the library builds
    the polygon, tests validity, finds the kinks and measures the area
    without throwing, "Area too small" is reported exactly when the area is
    below 1 and "Area too large" exactly when it is above 10,000,000,
    whatever the validity test and the kinks are. *)
Theorem area_reasons_when_measured
    (g : GeoJSON.Geometry) (polygon : GeoJSON.Feature) (valid : bool)
    (kinks : GeoJSON.FeatureCollection) (area : float) :
  GeoJSON.type g = "Polygon" →
  turf_polygon (GeoJSON.coordinates g) = Return polygon →
  turf_booleanValid polygon = Return valid →
  turf_kinks polygon = Return kinks →
  turf_area polygon = Return area →
  ("Area too small" ∈ errors (validateGeometry (Some g)) ↔ (area <? 1)%float = true) ∧
  ("Area too large" ∈ errors (validateGeometry (Some g)) ↔
     (10000000 <? area)%float = true).
Proof.
  intros Htype Hpolygon Hvalid Hkinks Harea.
  rewrite (validateGeometry_checked g polygon valid kinks area) by done.
  unfold triggeredReasons. cbn [errors].
  destruct valid, (0 <? length (GeoJSON.features kinks))%nat,
    (area <? 1)%float, (10000000 <? area)%float; reasons.
Qed.

(** C3, amended. A geometry that is missing or not of type Polygon is
    returned at once with the geometry-type reason alone.  For a geometry
    of type Polygon on which the library's calls return, the four remaining
    rules (validity, self-intersection, area too small, area too large) are
    all evaluated and the reasons of exactly the triggered ones are
    returned, in that order; a polygon that is both invalid and
    self-intersecting carries both reasons. *)
Theorem rules_after_type_check_all_evaluated (geometry : option GeoJSON.Geometry) :
  ((∀ g, geometry = Some g → GeoJSON.type g ≠ "Polygon") →
   validateGeometry geometry =
     {| isValid := false; errors := ["Geometry must be a Polygon"] |}) ∧
  (∀ g polygon valid kinks area,
     geometry = Some g →
     GeoJSON.type g = "Polygon" →
     turf_polygon (GeoJSON.coordinates g) = Return polygon →
     turf_booleanValid polygon = Return valid →
     turf_kinks polygon = Return kinks →
     turf_area polygon = Return area →
     let reasons := triggeredReasons valid (length (GeoJSON.features kinks)) area in
     errors (validateGeometry geometry) = reasons ∧
     isValid (validateGeometry geometry) = (length reasons =? 0)%nat ∧
     (valid = false → GeoJSON.features kinks ≠ [] →
      "Invalid polygon geometry" ∈ errors (validateGeometry geometry) ∧
      "Polygon has self-intersections" ∈ errors (validateGeometry geometry))).
Proof.
  split.
  - intros Hother. destruct geometry as [g |]; [| apply validateGeometry_null].
    apply validateGeometry_other_type. by apply Hother.
  - intros g polygon valid kinks area -> Htype Hpolygon Hvalid Hkinks Harea.
    rewrite (validateGeometry_checked g polygon valid kinks area) by done.
    cbn [errors isValid]. split; [done |]. split; [done |].
    intros -> Hsome. unfold triggeredReasons.
    destruct (GeoJSON.features kinks); [done |]. cbn [length Nat.ltb Nat.leb].
    destruct (area <? 1)%float, (10000000 <? area)%float; reasons.
Qed.

End Claims.

Lemma valid_polygon_accepted_witness :
  @validateGeometry Planar.turf (Some Examples.square) =
    {| isValid := true; errors := [] |} ∧
  ∃ plotsData s' plotData,
    @convertToPlotData Planar.turf Planar.runtime
      (Examples.shapefile [Examples.featureOf Examples.square ∅]) Examples.start =
      (Return plotsData, s') ∧
    plotData ∈ plotsData ∧
    (∃ s0, @recordOf Planar.turf Planar.runtime
             (Examples.featureOf Examples.square ∅) s0 plotData) ∧
    area_sqm plotData = 100%float.
Proof.
  apply (@valid_polygon_accepted Planar.turf Planar.runtime planar_spec
           (Examples.shapefile [Examples.featureOf Examples.square ∅])
           (Examples.featureOf Examples.square ∅)
           Examples.square
           (Examples.featureOf Examples.square ∅)
           {| GeoJSON.features := [] |}
           100%float Examples.start).
  - apply list_elem_of_here.
  - reflexivity.
  - reflexivity.
  - reflexivity.
  - reflexivity.
  - reflexivity.
  - reflexivity.
  - reflexivity.
  - reflexivity.
  - reflexivity.
Defined.

Lemma area_reasons_when_measured_witness :
  ("Area too small" ∈ errors (@validateGeometry Planar.turf (Some Examples.bowtie)) ↔
     (0 <? 1)%float = true) ∧
  ("Area too large" ∈ errors (@validateGeometry Planar.turf (Some Examples.bowtie)) ↔
     (10000000 <? 0)%float = true).
Proof.
  apply (@area_reasons_when_measured Planar.turf
           Examples.bowtie (Examples.featureOf Examples.bowtie ∅) false
           {| GeoJSON.features := [Planar.pointFeature (5, 5)%float] |} 0%float).
  - reflexivity.
  - reflexivity.
  - reflexivity.
  - reflexivity.
  - reflexivity.
Defined.

(** C2 as stated fails: the ring of [Examples.sliver] has three positions, so
    building the polygon throws and the area rules are never reached, although
    the area computed for the geometry, 0, is below 1. *)
Lemma area_too_small_not_reported :
  GeoJSON.type Examples.sliver = "Polygon" ∧
  @turf_area Planar.turf (Examples.featureOf Examples.sliver ∅) = Return 0%float ∧
  (0 <? 1)%float = true ∧
  errors (@validateGeometry Planar.turf (Some Examples.sliver)) =
    ["Invalid geometry format"] ∧
  "Area too small" ∉ errors (@validateGeometry Planar.turf (Some Examples.sliver)).
Proof.
  repeat split; try reflexivity.
  change (errors (@validateGeometry Planar.turf (Some Examples.sliver)))
    with ["Invalid geometry format"].
  intros H. apply elem_of_cons in H as [H | H]; [discriminate H |].
  by apply elem_of_nil in H.
Qed.

Lemma rules_after_type_check_all_evaluated_witness :
  errors (@validateGeometry Planar.turf (Some Examples.bowtie)) =
    ["Invalid polygon geometry"; "Polygon has self-intersections"; "Area too small"] ∧
  isValid (@validateGeometry Planar.turf (Some Examples.bowtie)) = false ∧
  "Invalid polygon geometry" ∈
    errors (@validateGeometry Planar.turf (Some Examples.bowtie)) ∧
  "Polygon has self-intersections" ∈
    errors (@validateGeometry Planar.turf (Some Examples.bowtie)).
Proof.
  destruct (@rules_after_type_check_all_evaluated Planar.turf (Some Examples.bowtie))
    as [_ Hrules].
  destruct (Hrules Examples.bowtie (Examples.featureOf Examples.bowtie ∅) false
              {| GeoJSON.features := [Planar.pointFeature (5, 5)%float] |} 0%float)
    as (Herrors & Hvalid & Hboth).
  - reflexivity.
  - reflexivity.
  - reflexivity.
  - reflexivity.
  - reflexivity.
  - reflexivity.
  - split; [exact Herrors |]. split; [exact Hvalid |].
    apply Hboth; [reflexivity | discriminate].
Defined.

(** C3 as stated fails: the geometry-type rule returns before the other rules
    are looked at.  The area computed for a point is 0, which triggers the
    area-too-small rule, yet the only reason returned is the one of the type
    rule. *)
Lemma type_rule_short_circuits :
  @turf_area Planar.turf (Examples.featureOf Examples.point ∅) = Return 0%float ∧
  (0 <? 1)%float = true ∧
  errors (@validateGeometry Planar.turf (Some Examples.point)) =
    ["Geometry must be a Polygon"] ∧
  "Area too small" ∉ errors (@validateGeometry Planar.turf (Some Examples.point)).
Proof.
  repeat split; try reflexivity.
  change (errors (@validateGeometry Planar.turf (Some Examples.point)))
    with ["Geometry must be a Polygon"].
  intros H. apply elem_of_cons in H as [H | H]; [discriminate H |].
  by apply elem_of_nil in H.
Qed.

Section NormalizerClaims.
Context {T : Turf} {R : Runtime}.

(** C5, amended. The price of a plot record is the value found under
    PRICE_USD, else under price, else under VALUE, the first that is truthy,
    stored as it is: no value is coerced, so a negative number or a
    non-numeric string is kept.  When none is truthy the price is whatever
    is under VALUE, [undefined] when there is nothing.  Reading the price
    never makes the conversion fail. *)
Theorem price_passed_through (shapefileData : ShapefileData) (s : Counters) :
  ∃ plotsData s',
    convertToPlotData shapefileData s = (Return plotsData, s') ∧
    ∀ plotData, plotData ∈ plotsData →
      ∃ feature, feature ∈ features shapefileData ∧
        let properties := default ∅ (GeoJSON.properties feature) in
        attributes plotData = properties ∧
        price_usd plotData =
          if truthy (prop properties "PRICE_USD") then prop properties "PRICE_USD"
          else if truthy (prop properties "price") then prop properties "price"
          else prop properties "VALUE".
Proof.
  destruct (convertToPlotData_batch shapefileData s) as (plotsData & s' & Hrun & Hbatch).
  exists plotsData, s'. split; [done |].
  intros plotData [j Hj]%list_elem_of_lookup.
  destruct (Forall2_lookup_r _ _ _ _ _ Hbatch Hj) as (feature & Hi & s0 & Hrecord).
  apply list_elem_of_lookup_2, list_elem_of_filter in Hi as [_ Hin].
  exists feature. split; [done |].
  destruct Hrecord as (_ & _ & _ & _ & _ & Hprice & _ & Hattributes).
  split; [done |]. rewrite Hprice. unfold js_or.
  destruct (truthy (prop _ "PRICE_USD")) eqn:H1; [by rewrite H1 |].
  by destruct (truthy (prop _ "price")).
Qed.

(** C9. The records of the batch are, in order, the records of the features
    that are accepted, and these features are a subsequence of the input:
    relative order is kept.  The conversion always returns, and a feature
    is in the batch whenever its own area is computed and its own geometry
    passes, whatever happened to the features before it. *)
Theorem batch_preserves_order (shapefileData : ShapefileData) (s : Counters) :
  ∃ plotsData s',
    convertToPlotData shapefileData s = (Return plotsData, s') ∧
    Forall2 (λ feature plotData, ∃ s0, recordOf feature s0 plotData)
      (filter (λ feature, accepted feature = true) (features shapefileData))
      plotsData ∧
    filter (λ feature, accepted feature = true) (features shapefileData)
      `sublist_of` features shapefileData.
Proof.
  destruct (convertToPlotData_batch shapefileData s) as (plotsData & s' & Hrun & Hbatch).
  exists plotsData, s'. split; [done |]. split; [done |]. apply sublist_filter.
Qed.

(** C10. Every record of the batch was built from an input feature whose
    geometry passes [validateGeometry], and the batch has no more records
    than there are input features. *)
Theorem batch_only_valid (shapefileData : ShapefileData) (s : Counters) :
  ∃ plotsData s',
    convertToPlotData shapefileData s = (Return plotsData, s') ∧
    (∀ plotData, plotData ∈ plotsData →
       ∃ feature, feature ∈ features shapefileData ∧
         geometry plotData = JSON_stringify (GeoJSON.geometry feature) ∧
         isValid (validateGeometry (GeoJSON.geometry feature)) = true) ∧
    (length plotsData ≤ length (features shapefileData))%nat.
Proof.
  destruct (convertToPlotData_batch shapefileData s) as (plotsData & s' & Hrun & Hbatch).
  exists plotsData, s'. split; [done |]. split.
  - intros plotData [j Hj]%list_elem_of_lookup.
    destruct (Forall2_lookup_r _ _ _ _ _ Hbatch Hj) as (feature & Hi & s0 & Hrecord).
    apply list_elem_of_lookup_2, list_elem_of_filter in Hi as [Hacc Hin].
    exists feature. split; [done |].
    destruct Hrecord as (_ & Hgeometry & _). split; [done |].
    unfold accepted in Hacc. by apply andb_true_iff in Hacc as [_ Hvalid].
  - rewrite <- (Forall2_length _ _ _ Hbatch). apply length_filter.
Qed.

End NormalizerClaims.

(** Two features that fail, one that throws and one with no geometry do not
    stop the loop: the records of the first and of the last feature come out,
    in that order. *)
Example batch_skips_and_continues :
  ∃ first second s',
    @convertToPlotData Planar.turf Planar.runtime
      (Examples.shapefile
         [Examples.featureOf Examples.square {[ "PLOT_CODE" := JsString "A" ]};
          Examples.featureOf Examples.bowtie {[ "PLOT_CODE" := JsString "X" ]};
          {| GeoJSON.geometry := None; GeoJSON.properties := None |};
          Examples.featureOf Examples.sliver ∅;
          Examples.featureOf Examples.square {[ "ID" := JsNumber 42 ]}])
      Examples.start = (Return [first; second], s') ∧
    plot_code first = JsString "A" ∧
    plot_code second = JsNumber 42.
Proof. eexists _, _, _. split; [reflexivity |]. split; reflexivity. Qed.

Section AreaClaims.
Context {T : Turf} {TS : TurfSpec T} {R : Runtime}.

Lemma accepted_geometry (f1 f2 : GeoJSON.Feature) :
  GeoJSON.geometry f1 = GeoJSON.geometry f2 → accepted f1 = accepted f2.
Proof.
  intros Hgeometry. unfold accepted.
  by rewrite (turf_area_geometry f1 f2 Hgeometry), Hgeometry.
Qed.

Lemma batch_areas_agree (features1 : list GeoJSON.Feature) :
  ∀ features2 plots1 plots2,
    GeoJSON.geometry <$> features1 = GeoJSON.geometry <$> features2 →
    batchOf features1 plots1 →
    batchOf features2 plots2 →
    area_sqm <$> plots1 = area_sqm <$> plots2.
Proof.
  unfold batchOf.
  induction features1 as [| f1 rest1 IH]; intros [| f2 rest2] plots1 plots2 Hsame;
    try discriminate Hsame.
  - rewrite filter_nil. by intros ->%Forall2_nil_inv_l ->%Forall2_nil_inv_l.
  - injection Hsame as Hhead Htail.
    pose proof (accepted_geometry f1 f2 Hhead) as Hacc.
    destruct (accepted f2) eqn:H2.
    + rewrite !filter_cons_True by done.
      intros (r1 & tail1 & (s1 & Hr1) & Hrest1 & ->)%Forall2_cons_inv_l.
      intros (r2 & tail2 & (s2 & Hr2) & Hrest2 & ->)%Forall2_cons_inv_l.
      rewrite !fmap_cons. f_equal; [| by eapply IH].
      destruct Hr1 as (_ & _ & Ha1 & _), Hr2 as (_ & _ & Ha2 & _).
      rewrite (turf_area_geometry f1 f2 Hhead), Ha2 in Ha1. by injection Ha1.
    + rewrite !filter_cons_False by (rewrite ?Hacc, ?H2; done).
      by apply IH.
Qed.

(** C6. The area of a plot record is the area the library computes for the
    geometry of its feature, and it does not depend on the attributes: two
    inputs with the same geometries, whatever their attributes (an AREA_SQM
    attribute included), give the same areas. *)
Theorem area_from_geometry_only (data1 data2 : ShapefileData) (s1 s2 : Counters) :
  GeoJSON.geometry <$> features data1 = GeoJSON.geometry <$> features data2 →
  ∃ plots1 s1' plots2 s2',
    convertToPlotData data1 s1 = (Return plots1, s1') ∧
    convertToPlotData data2 s2 = (Return plots2, s2') ∧
    Forall2
      (λ feature plotData,
         turf_area {| GeoJSON.geometry := GeoJSON.geometry feature;
                      GeoJSON.properties := None |} = Return (area_sqm plotData))
      (filter (λ feature, accepted feature = true) (features data1)) plots1 ∧
    area_sqm <$> plots1 = area_sqm <$> plots2.
Proof.
  intros Hsame.
  destruct (convertToPlotData_batch data1 s1) as (plots1 & s1' & Hrun1 & Hbatch1).
  destruct (convertToPlotData_batch data2 s2) as (plots2 & s2' & Hrun2 & Hbatch2).
  exists plots1, s1', plots2, s2'. repeat split; [done | done | |].
  - eapply Forall2_impl; [exact Hbatch1 |].
    intros feature plotData (s0 & _ & _ & Harea & _).
    by rewrite <- Harea; apply turf_area_geometry.
  - by eapply batch_areas_agree.
Qed.

End AreaClaims.

Lemma area_from_geometry_only_witness :
  let surveyed :=
    Examples.shapefile
      [Examples.featureOf Examples.square {[ "AREA_SQM" := JsNumber 1500 ]}] in
  let declared :=
    Examples.shapefile
      [Examples.featureOf Examples.square
         (<[ "AREA_SQM" := JsNumber 7 ]> {[ "OWNER" := JsString "Ada" ]})] in
  ∃ plots1 s1' plots2 s2',
    @convertToPlotData Planar.turf Planar.runtime surveyed Examples.start =
      (Return plots1, s1') ∧
    @convertToPlotData Planar.turf Planar.runtime declared Examples.start =
      (Return plots2, s2') ∧
    Forall2
      (λ feature plotData,
         @turf_area Planar.turf
           {| GeoJSON.geometry := GeoJSON.geometry feature;
              GeoJSON.properties := None |} = Return (area_sqm plotData))
      (filter (λ feature, @accepted Planar.turf feature = true) (features surveyed))
      plots1 ∧
    area_sqm <$> plots1 = area_sqm <$> plots2.
Proof.
  apply (@area_from_geometry_only Planar.turf planar_spec Planar.runtime).
  reflexivity.
Defined.

(** C4 as stated fails: names are compared as written.  An attribute spelled
    Plot_Code is not read, and the plot code is synthesized instead; and an
    empty PLOT_CODE, though present, does not win over plot_code. *)
Lemma plot_code_alias_is_case_sensitive :
  @plotCode Planar.runtime {[ "Plot_Code" := JsString "A1" ]} Examples.start =
    (Return (JsString "PLOT_1700000000000_9"), {| now_calls := 1; random_calls := 1 |}) ∧
  @plotCode Planar.runtime
    (<[ "PLOT_CODE" := JsString "" ]> {[ "plot_code" := JsString "B2" ]})
    Examples.start =
    (Return (JsString "B2"), Examples.start).
Proof. split; reflexivity. Qed.

(** C5 as stated fails: nothing is coerced.  A negative price and a price
    that is not a number are both stored on the plot record as they are: the
    batch of two parcels that pass validation holds both records, with these
    prices. *)
Lemma price_not_coerced :
  ∃ first second s',
    @convertToPlotData Planar.turf Planar.runtime
      (Examples.shapefile
         [Examples.featureOf Examples.strip {[ "PRICE_USD" := JsNumber (-5) ]};
          Examples.featureOf Examples.strip {[ "price" := JsString "call us" ]}])
      Examples.start = (Return [first; second], s') ∧
    price_usd first = JsNumber (-5) ∧
    price_usd second = JsString "call us".
Proof. eexists _, _, _. split; [reflexivity |]. split; reflexivity. Qed.

(** ** Properties of validateFile and parseShapefileFromZip *)

(** C7, amended. A file passes the check made before parsing exactly when it
    has at most 50 MB and the part of its name after the last dot, in lower
    case, is one of zip, shp, shx, dbf, prj, cpg.  A larger file is rejected
    with the size reason and a file with another extension with the format
    reason; the check reads the name and the size only. *)
Theorem validateFile_accepts_listed_extensions (file : File) :
  (isValid (validateFile file) = true ↔
     (size file ≤ 52428800)%N ∧
     ∃ ext, extension file = Some ext ∧ ext ∈ acceptedExtensions) ∧
  ("File size exceeds 50MB limit" ∈ errors (validateFile file) ↔
     (52428800 < size file)%N) ∧
  ("Unsupported file format. Please upload a ZIP file containing shapefile components."
     ∈ errors (validateFile file) ↔
     ¬ ∃ ext, extension file = Some ext ∧ ext ∈ acceptedExtensions) ∧
  (isValid (validateFile file) = false ↔ errors (validateFile file) ≠ []) ∧
  (∀ other, name other = name file → size other = size file →
     validateFile other = validateFile file).
Proof.
  set (listed := ∃ ext, extension file = Some ext ∧ ext ∈ acceptedExtensions).
  assert (Hext : ∃ ok : bool, (ok = true ↔ listed) ∧
            missing (extension file) ||
              negb (bool_decide (default "" (extension file) ∈
                                   map (remove_first ".") getSupportedFormats)) =
            negb ok).
  { change (map (remove_first ".") getSupportedFormats) with acceptedExtensions.
    subst listed. destruct (extension file) as [ext |]; cbn [missing default].
    - destruct (String.eqb_spec ext "") as [-> | Hne]; cbn [orb].
      + exists false. split; [| done]. split; [done |].
        intros (ext & [= <-] & Hin). unfold acceptedExtensions in Hin. reasons.
      + exists (bool_decide (ext ∈ acceptedExtensions)). split; [| done].
        rewrite bool_decide_eq_true. split; [by eauto |].
        by intros (? & [= <-] & ?).
    - exists false. split; [| done]. split; [done |]. by intros (? & ? & ?). }
  destruct Hext as (ok & Hok & Hext).
  refine (conj _ (conj _ (conj _ (conj _ _)))); cycle 4.
  { intros other Hname Hsize. unfold validateFile, extension. by rewrite Hname, Hsize. }
  all: unfold validateFile; rewrite Hext; clear Hext.
  all: change (50 * 1024 * 1024)%N with 52428800%N.
  all: destruct (N.ltb_spec 52428800 (size file)) as [Hbig | Hsmall].
  all: destruct ok;
    [assert (Hl : listed) by (by apply Hok)
    | assert (Hl : ¬ listed) by (intros Hl; by apply Hok in Hl)].
  all: clear Hok; cbn [negb app length Nat.eqb isValid errors].
  all: repeat match goal with
         | |- _ ∧ _ => split
         | |- _ ↔ _ => split
         | |- ¬ _ => intros ?
         | |- _ → _ => intros ?
         | H : _ ∧ _ |- _ => destruct H
         | H : _ ∈ [] |- _ => by apply elem_of_nil in H
         | H : _ ∈ _ :: _ |- _ => apply elem_of_cons in H as [H | H]; [discriminate H |]
         | |- _ ∈ _ :: _ => first [apply list_elem_of_here | apply list_elem_of_further]
         end.
  all: try done; try lia.
Qed.

(** C7 as stated fails: a bare geometry component of a kilobyte, which is
    not an archive at all, passes the check. *)
Lemma bare_component_passes_validation :
  let file :=
    {| name := "parcels.shp"; size := 1024;
       archive := Throw "Can't find end of central directory : is this a zip file ?" |} in
  validateFile file = {| isValid := true; errors := [] |} ∧
  extension file = Some "shp" ∧
  is_Return (archive file) = false.
Proof. repeat split; reflexivity. Qed.

Lemma missing_find (suffix : string) (files : list string) :
  suffix ≠ "" →
  missing (List.find (λ name, endsWith (toLowerCase name) suffix) files) =
    negb (hasEntry suffix files).
Proof.
  intros Hsuffix. unfold hasEntry.
  induction files as [| entry rest IH]; [done |].
  cbn [List.find existsb].
  destruct (endsWith (toLowerCase entry) suffix) eqn:Hends; [| exact IH].
  cbn [missing orb negb]. destruct entry as [| c entry]; [| done].
  destruct suffix; [done |]. discriminate Hends.
Qed.

Section ArchiveClaims.
Context {T : Turf} {R : Runtime}.

(** C8. A package with no entry ending in .shp, or none ending in .dbf,
    makes parsing throw the missing-component error with the counters
    untouched: no random number was drawn and no feature built.  When both
    are there, parsing goes on to the features and the bounds whether or
    not an entry ends in .prj, which only sets the projection and the
    [hasProjection] flag. *)
Theorem missing_component_fails (file : File) (files : list string) (s : Counters) :
  archive file = Return files →
  (hasEntry ".shp" files && hasEntry ".dbf" files = false →
   parseShapefileFromZip file s =
     (Throw "Failed to parse shapefile: Shapefile must contain .shp and .dbf files", s)) ∧
  (hasEntry ".shp" files && hasEntry ".dbf" files = true →
   parseShapefileFromZip file s =
     match generateMockFeaturesFromFile file s with
     | (Return mockFeatures, s1) =>
       match calculateBounds mockFeatures s1 with
       | (Return bounds, s2) =>
         (Return {|
            features := mockFeatures;
            projection := if hasEntry ".prj" files then Some "EPSG:4326" else None;
            bounds := bounds;
            metadata := {|
              fileCount := length files;
              hasProjection := hasEntry ".prj" files
            |}
          |}, s2)
       | (Throw e, s2) => (Throw ("Failed to parse shapefile: " +:+ e), s2)
       end
     | (Throw e, s1) => (Throw ("Failed to parse shapefile: " +:+ e), s1)
     end).
Proof.
  intros Harchive.
  split; intros Hcase.
  all: unfold parseShapefileFromZip, try_catch; unfold bind at 1; unfold lift.
  all: rewrite Harchive, !missing_find by done.
  all: destruct (hasEntry ".shp" files), (hasEntry ".dbf" files);
    try discriminate Hcase; try reflexivity.
  cbn [negb orb]. unfold bind.
  destruct (generateMockFeaturesFromFile file s) as [[mockFeatures | e] s1];
    [| reflexivity].
  destruct (calculateBounds mockFeatures s1) as [[bounds | e] s2]; [| reflexivity].
  unfold ret. by destruct (hasEntry ".prj" files).
Qed.

End ArchiveClaims.

Lemma missing_component_fails_witness :
  @parseShapefileFromZip Planar.turf Planar.runtime
    (Examples.package ["parcels.shp"; "parcels.shx"; "parcels.prj"]) Examples.start =
    (Throw "Failed to parse shapefile: Shapefile must contain .shp and .dbf files",
     Examples.start) ∧
  ∃ data,
    @parseShapefileFromZip Planar.turf Planar.runtime
      (Examples.package ["parcels.SHP"; "parcels.dbf"]) Examples.start =
      (Return data, {| now_calls := 0; random_calls := 50 |}) ∧
    length (features data) = 10 ∧
    projection data = None.
Proof.
  split.
  - apply (@missing_component_fails Planar.turf Planar.runtime
             (Examples.package ["parcels.shp"; "parcels.shx"; "parcels.prj"])
             ["parcels.shp"; "parcels.shx"; "parcels.prj"] Examples.start);
      reflexivity.
  - eexists. split; [| split].
    + etransitivity.
      * apply (@missing_component_fails Planar.turf Planar.runtime
                 (Examples.package ["parcels.SHP"; "parcels.dbf"])
                 ["parcels.SHP"; "parcels.dbf"] Examples.start);
          reflexivity.
      * vm_compute. reflexivity.
    + reflexivity.
    + reflexivity.
Defined.


(** ** Further properties of the validators *)

(** Runs a validator on a geometry by cases on what the library answers. *)
Ltac validator_cases geometry :=
  unfold validateGeometry, validatePlotGeometry, try_catch,
    validateGeometry_try, validatePlotGeometry_try, bind, lift;
  destruct geometry as [[type coordinates] |]; cbn [GeoJSON.type GeoJSON.coordinates];
  [ destruct (String.eqb type "Polygon") eqn:?; cbn [negb];
    [ destruct (turf_polygon coordinates) as [polygon | ?] eqn:?;
      [ destruct (turf_booleanValid polygon) as [[|] | ?] eqn:?;
        (destruct (turf_kinks polygon) as [[[| kink kinks]] | ?] eqn:?;
         [ destruct (turf_area polygon) as [area | ?] eqn:?;
           [ destruct (area <? 1)%float eqn:?, (10000000 <? area)%float eqn:? | ]
         | destruct (turf_area polygon) as [area | ?] eqn:?;
           [ destruct (area <? 1)%float eqn:?, (10000000 <? area)%float eqn:? | ]
         | ])
      | ]
    | ]
  | ];
  cbn.

Section ValidatorFacts.
Context {T : Turf}.

(** X1. Whatever the geometry and whatever the library answers,
    [validateGeometry] reports [isValid = true] exactly when it returns no
    reason. *)
Theorem validateGeometry_valid_iff_no_reason (geometry : option GeoJSON.Geometry) :
  isValid (validateGeometry geometry) = true ↔ errors (validateGeometry geometry) = [].
Proof. validator_cases geometry; split; intros; done. Qed.

(** X2. For a geometry of type Polygon, "Invalid geometry format" is reported
    exactly when a call of the library throws: building the polygon, or, once
    it is built, the validity test, the search for kinks or the area.  The
    geometry is then rejected, and the reasons are exactly those pushed
    before the throw, in the order they were pushed (the validity reason
    when the test answered no, the self-intersection reason when kinks were
    found), followed by the format reason. *)
Theorem format_reason_iff_library_throws (g : GeoJSON.Geometry) :
  GeoJSON.type g = "Polygon" →
  let throws :=
    (∃ e, turf_polygon (GeoJSON.coordinates g) = Throw e) ∨
    (∃ polygon, turf_polygon (GeoJSON.coordinates g) = Return polygon ∧
       ((∃ e, turf_booleanValid polygon = Throw e) ∨
        (∃ valid, turf_booleanValid polygon = Return valid ∧
           ((∃ e, turf_kinks polygon = Throw e) ∨
            (∃ kinks, turf_kinks polygon = Return kinks ∧
               ∃ e, turf_area polygon = Throw e))))) in
  let pushed :=
    match turf_polygon (GeoJSON.coordinates g) with
    | Throw _ => []
    | Return polygon =>
      match turf_booleanValid polygon with
      | Throw _ => []
      | Return valid =>
        ((if valid then [] else ["Invalid polygon geometry"]) ++
         match turf_kinks polygon with
         | Throw _ => []
         | Return kinks =>
           if (0 <? length (GeoJSON.features kinks))%nat
           then ["Polygon has self-intersections"]
           else []
         end)%list
      end
    end in
  ("Invalid geometry format" ∈ errors (validateGeometry (Some g)) ↔ throws) ∧
  (throws →
   validateGeometry (Some g) =
     {| isValid := false; errors := (pushed ++ ["Invalid geometry format"])%list |}).
Proof.
  intros Htype throws pushed. destruct g as [type coordinates].
  cbn [GeoJSON.type GeoJSON.coordinates] in *. subst type.
  assert (Hcases :
    (throws ∧
     validateGeometry (Some {| GeoJSON.type := "Polygon";
                               GeoJSON.coordinates := coordinates |}) =
       {| isValid := false; errors := (pushed ++ ["Invalid geometry format"])%list |}) ∨
    (¬ throws ∧
     "Invalid geometry format" ∉
       errors (validateGeometry (Some {| GeoJSON.type := "Polygon";
                                         GeoJSON.coordinates := coordinates |})))).
  { subst throws pushed.
    unfold validateGeometry, try_catch, validateGeometry_try, bind, lift.
    cbn [GeoJSON.type GeoJSON.coordinates String.eqb Ascii.eqb Bool.eqb negb].
    destruct (turf_polygon coordinates) as [polygon | e0] eqn:H0.
    2: { left. split; [left; by exists e0 | done]. }
    destruct (turf_booleanValid polygon) as [valid | e1] eqn:H1.
    2: { left. split; [| done].
         right. exists polygon. split; [done |]. left. by exists e1. }
    destruct (turf_kinks polygon) as [kinks | e2] eqn:H2.
    2: { left. split.
         { right. exists polygon. split; [done |]. right. exists valid.
           split; [done |]. left. by exists e2. }
         by destruct valid. }
    destruct (turf_area polygon) as [area | e3] eqn:H3.
    2: { left. split.
         { right. exists polygon. split; [done |]. right. exists valid.
           split; [done |]. right. exists kinks. split; [done |]. by exists e3. }
         by destruct valid, (GeoJSON.features kinks) as [| kink rest]. }
    right. split.
    - intros [[e He] | (p & [= <-] & [[e He] | (v & _ & [[e He] | (k & _ & e & He)])])];
        congruence.
    - destruct valid, (GeoJSON.features kinks) as [| kink rest],
        (area <? 1)%float, (10000000 <? area)%float; cbn; intros Hin; reasons. }
  destruct Hcases as [(Hyes & Hresult) | (Hno & Hnot)].
  - rewrite Hresult. cbn [errors isValid]. split; [| done].
    split; [done |]. intros _. apply elem_of_app. right. apply list_elem_of_here.
  - split; [split; [done |] |]; intros Hthrows; by destruct Hno.
Qed.

(** X3. [validateGeometry] accepts a geometry exactly when it is of type
    Polygon, every call of the library returns, the polygon is valid and has
    no kink, and the area is neither below 1 nor above 10,000,000: both
    bounds are accepted, and so is an area that is not a number. *)
Theorem validateGeometry_accepts_iff (geometry : option GeoJSON.Geometry) :
  isValid (validateGeometry geometry) = true ↔
  ∃ g polygon kinks area,
    geometry = Some g ∧
    GeoJSON.type g = "Polygon" ∧
    turf_polygon (GeoJSON.coordinates g) = Return polygon ∧
    turf_booleanValid polygon = Return true ∧
    turf_kinks polygon = Return kinks ∧
    GeoJSON.features kinks = [] ∧
    turf_area polygon = Return area ∧
    (area <? 1)%float = false ∧
    (10000000 <? area)%float = false.
Proof.
  split.
  - validator_cases geometry; intros Hvalid; try discriminate Hvalid.
    match goal with H : String.eqb _ _ = true |- _ => apply String.eqb_eq in H end.
    eexists _, _, _, _. repeat split; try eassumption; done.
  - intros (g & polygon & kinks & area & -> & Htype & Hpolygon & Hvalid & Hkinks
            & Hnone & Harea & Hlow & Hhigh).
    rewrite (validateGeometry_checked g polygon true kinks area) by done.
    unfold triggeredReasons. by rewrite Hnone, Hlow, Hhigh.
Qed.

(** X4. [PlotService.validatePlotGeometry] and
    [ShapefileService.validateGeometry] decide alike: on every geometry they
    agree on [isValid], and the reasons of the first are the reasons of the
    second, in the same order, in its own wording. *)
Theorem validators_agree (geometry : option GeoJSON.Geometry) :
  isValid (validatePlotGeometry geometry) = isValid (validateGeometry geometry) ∧
  errors (validatePlotGeometry geometry) =
    plotReason <$> errors (validateGeometry geometry).
Proof. validator_cases geometry; done. Qed.

End ValidatorFacts.

Lemma format_reason_iff_library_throws_witness :
  "Invalid geometry format" ∈ errors (@validateGeometry Planar.turf (Some Examples.sliver)) ∧
  @validateGeometry Planar.turf (Some Examples.sliver) =
    {| isValid := false; errors := ["Invalid geometry format"] |}.
Proof.
  destruct (@format_reason_iff_library_throws Planar.turf Examples.sliver eq_refl)
    as [Hiff Hthrows].
  assert (Hpolygon : ∃ e,
            @turf_polygon Planar.turf (GeoJSON.coordinates Examples.sliver) = Throw e).
  { eexists. reflexivity. }
  split.
  - apply Hiff. left. exact Hpolygon.
  - exact (Hthrows (or_introl Hpolygon)).
Defined.

(** ** Further properties of convertToPlotData *)

Section LoopFacts.
Context {T : Turf} {R : Runtime}.

Lemma convertLoop_accumulates (features : list GeoJSON.Feature) :
  ∀ plotsData s, ∃ pushed s',
    convertLoop features [] s = (Return pushed, s') ∧
    convertLoop features plotsData s = (Return (plotsData ++ pushed)%list, s').
Proof.
  induction features as [| feature rest IH]; intros plotsData s.
  - exists [], s. by rewrite app_nil_r.
  - cbn [convertLoop]. unfold bind.
    destruct (accepted feature) eqn:Hacc.
    + destruct (convertFeature_accepted feature s Hacc) as (plotData & s1 & -> & _).
      cbn [app].
      destruct (IH [plotData] s1) as (pushed & s' & Hnil & ->).
      destruct (IH (plotsData ++ [plotData])%list s1) as (pushed' & s'' & Hnil' & ->).
      rewrite Hnil in Hnil'. injection Hnil' as <- <-.
      exists (plotData :: pushed), s'. split; [done |]. by rewrite <- app_assoc.
    + destruct (convertFeature_rejected feature s Hacc) as (s1 & ->).
      destruct (IH [] s1) as (pushed & s' & Hnil & _).
      destruct (IH plotsData s1) as (pushed' & s'' & Hnil' & ->).
      rewrite Hnil in Hnil'. injection Hnil' as <- <-.
      by exists pushed, s'.
Qed.

Lemma convertLoop_app (before after : list GeoJSON.Feature) :
  ∀ s, ∃ plots1 s1 plots2 s2,
    convertLoop before [] s = (Return plots1, s1) ∧
    convertLoop after [] s1 = (Return plots2, s2) ∧
    convertLoop (before ++ after) [] s = (Return (plots1 ++ plots2)%list, s2).
Proof.
  induction before as [| feature rest IH]; intros s.
  - destruct (convertLoop_accumulates after [] s) as (plots2 & s2 & Hrun & _).
    by exists [], s, plots2, s2.
  - cbn [convertLoop app]. unfold bind.
    destruct (convertFeature feature s) as [[pushed | e] s0] eqn:Hfeature.
    2: { destruct (accepted feature) eqn:Hacc.
         - destruct (convertFeature_accepted feature s Hacc) as (? & ? & Hrun & _).
           congruence.
         - destruct (convertFeature_rejected feature s Hacc) as (? & Hrun). congruence. }
    destruct (IH s0) as (plots1 & s1 & plots2 & s2 & Hbefore & Hafter & Hall).
    set (start := match pushed with
                  | Some plotData => ([] ++ [plotData])%list
                  | None => []
                  end).
    destruct (convertLoop_accumulates rest start s0) as (out1 & t1 & Hnil1 & Hrun1).
    destruct (convertLoop_accumulates (rest ++ after) start s0)
      as (out2 & t2 & Hnil2 & Hrun2).
    rewrite Hbefore in Hnil1. injection Hnil1 as <- <-.
    rewrite Hall in Hnil2. injection Hnil2 as <- <-.
    exists (start ++ plots1)%list, s1, plots2, s2.
    split; [exact Hrun1 |]. split; [done |]. by rewrite <- app_assoc.
Qed.

(** X5. Converting a list of features in two parts, the second from the
    counters the first one left, gives the same batch as converting it in one
    go: the batch of the whole is the batch of the first part followed by the
    batch of the second. *)
Theorem convertToPlotData_app (whole first second : ShapefileData) (s : Counters) :
  features whole = (features first ++ features second)%list →
  ∃ plots1 s1 plots2 s2,
    convertToPlotData first s = (Return plots1, s1) ∧
    convertToPlotData second s1 = (Return plots2, s2) ∧
    convertToPlotData whole s = (Return (plots1 ++ plots2)%list, s2).
Proof.
  intros Hwhole. unfold convertToPlotData. rewrite Hwhole. apply convertLoop_app.
Qed.

Lemma plotCode_counters (properties : gmap string JsValue) (s : Counters) :
  let found :=
    js_or (js_or (prop properties "PLOT_CODE") (prop properties "plot_code"))
          (prop properties "ID") in
  ∃ code,
    plotCode properties s =
      (Return code,
       if truthy found then s
       else {| now_calls := S (now_calls s); random_calls := S (random_calls s) |}).
Proof.
  intros found. unfold plotCode. fold found.
  destruct (truthy found); by eexists.
Qed.

Lemma convertFeature_counters (feature : GeoJSON.Feature) (s : Counters) :
  ∃ pushed,
    convertFeature feature s =
      (Return pushed,
       if synthesizes feature
       then {| now_calls := S (now_calls s); random_calls := S (random_calls s) |}
       else s).
Proof.
  unfold convertFeature, try_catch, convertFeature_try, synthesizes, bind, lift.
  destruct (turf_area feature) as [area | e]; cbn [is_Return andb]; [| by eexists].
  destruct (plotCode_counters (default ∅ (GeoJSON.properties feature)) s) as (code & ->).
  destruct (truthy _); cbn [negb];
    destruct (isValid (validateGeometry (GeoJSON.geometry feature))); by eexists.
Qed.

Lemma convertLoop_counters (features : list GeoJSON.Feature) :
  ∀ plotsData s, ∃ plots s',
    convertLoop features plotsData s = (Return plots, s') ∧
    now_calls s' =
      (now_calls s + length (filter (λ f, synthesizes f = true) features))%nat ∧
    random_calls s' =
      (random_calls s + length (filter (λ f, synthesizes f = true) features))%nat.
Proof.
  induction features as [| feature rest IH]; intros plotsData s.
  - exists plotsData, s. cbn. split; [done |]. split; lia.
  - cbn [convertLoop]. unfold bind.
    destruct (convertFeature_counters feature s) as (pushed & ->).
    destruct (IH (match pushed with
                  | Some plotData => (plotsData ++ [plotData])%list
                  | None => plotsData
                  end)
                 (if synthesizes feature
                  then {| now_calls := S (now_calls s);
                          random_calls := S (random_calls s) |}
                  else s)) as (plots & s' & -> & Hnow & Hrandom).
    exists plots, s'. split; [done |].
    destruct (synthesizes feature) eqn:Hmade.
    + rewrite filter_cons_True by done. cbn in *. split; lia.
    + rewrite filter_cons_False by (rewrite Hmade; done). by split.
Qed.

(** X6. The clock and the random source are read together, once for each
    feature whose area is computed and that has no truthy plot-code
    attribute, whether or not that feature is then accepted; they are not
    read otherwise. *)
Theorem convertToPlotData_counters (shapefileData : ShapefileData) (s : Counters) :
  let made := length (filter (λ f, synthesizes f = true) (features shapefileData)) in
  ∃ plotsData s',
    convertToPlotData shapefileData s = (Return plotsData, s') ∧
    now_calls s' = (now_calls s + made)%nat ∧
    random_calls s' = (random_calls s + made)%nat.
Proof. apply convertLoop_counters. Qed.

End LoopFacts.

(** ** Made-up plot codes *)

Lemma pretty_N_char_digit (x : N) : is_digit (pretty_N_char x) = true.
Proof. unfold pretty_N_char. by repeat case_match. Qed.

Lemma pretty_N_go_digits (x : N) :
  ∀ s, digits_only s = true → digits_only (pretty_N_go x s) = true.
Proof.
  induction (N.lt_wf_0 x) as [x _ IH]. intros s Hs.
  destruct (decide (x = 0)%N) as [-> | Hpos]; [by rewrite pretty_N_go_0 |].
  rewrite pretty_N_go_step by lia.
  apply IH; [apply N.div_lt; lia |].
  cbn [digits_only]. by rewrite pretty_N_char_digit, Hs.
Qed.

Lemma pretty_N_digits (n : N) : digits_only (pretty n) = true.
Proof.
  unfold pretty, pretty_N. case_decide; [done |]. by apply pretty_N_go_digits.
Qed.

Lemma digits_then_underscore (d1 : string) :
  ∀ d2 x1 x2,
    digits_only d1 = true → digits_only d2 = true →
    d1 +:+ String "_" x1 = d2 +:+ String "_" x2 →
    d1 = d2 ∧ x1 = x2.
Proof.
  induction d1 as [| c d1 IH]; intros [| c' d2] x1 x2 H1 H2 Heq; cbn in *.
  - by injection Heq as ->.
  - injection Heq as <- _. discriminate H2.
  - injection Heq as -> _. discriminate H1.
  - injection Heq as -> Hrest.
    apply andb_true_iff in H1 as [_ H1]. apply andb_true_iff in H2 as [_ H2].
    destruct (IH d2 x1 x2 H1 H2 Hrest) as [-> ->]. done.
Qed.

Section CodeFacts.
Context {T : Turf} {R : Runtime}.

Lemma synthesizedAt_inj (k1 j1 k2 j2 : nat) :
  synthesizedAt k1 j1 = synthesizedAt k2 j2 ↔
  Date_now k1 = Date_now k2 ∧ randomSuffix j1 = randomSuffix j2.
Proof.
  unfold synthesizedAt. split.
  - intros [= Heq].
    apply digits_then_underscore in Heq as [Hnow Hsuffix];
      [| apply pretty_N_digits | apply pretty_N_digits].
    split; [by apply (inj pretty) | done].
  - by intros [-> ->].
Qed.

(** X7. Two made-up plot codes are equal exactly when they were made from the
    same reading of the clock and the same random suffix: a different
    millisecond, or a different suffix, gives a different code. *)
Theorem synthesized_codes_equal_iff (s1 s2 : Counters) :
  (synthesizedPlotCode s1).1 = (synthesizedPlotCode s2).1 ↔
  Date_now (now_calls s1) = Date_now (now_calls s2) ∧
  randomSuffix (random_calls s1) = randomSuffix (random_calls s2).
Proof.
  rewrite <- synthesizedAt_inj. unfold synthesizedPlotCode, bind, date_now, math_random, ret.
  cbn. unfold synthesizedAt, randomSuffix. split; congruence.
Qed.

Lemma convertLoop_cons (feature : GeoJSON.Feature) (rest : list GeoJSON.Feature)
    (s : Counters) :
  ∃ pushed out s',
    let s1 := if synthesizes feature
              then {| now_calls := S (now_calls s); random_calls := S (random_calls s) |}
              else s in
    convertLoop rest [] s1 = (Return out, s') ∧
    convertLoop (feature :: rest) [] s =
      (Return (match pushed with Some plotData => plotData :: out | None => out end), s') ∧
    (accepted feature = true → ∃ plotData, pushed = Some plotData ∧
                                            recordOf feature s plotData) ∧
    (accepted feature = false → pushed = None).
Proof.
  destruct (convertFeature_counters feature s) as (pushed & Hrun).
  cbn [convertLoop]. unfold bind. rewrite Hrun.
  set (s1 := if synthesizes feature then _ else s) in *.
  set (start := match pushed with
                | Some plotData => ([] ++ [plotData])%list
                | None => []
                end).
  destruct (convertLoop_accumulates rest start s1) as (out & s' & Hnil & ->).
  exists pushed, out, s'. cbn zeta. split; [done |]. split.
  { subst start. by destruct pushed. }
  split; intros Hacc.
  - destruct (convertFeature_accepted feature s Hacc) as (plotData & s0 & Hrun' & Hrecord).
    rewrite Hrun in Hrun'. injection Hrun' as -> _. by exists plotData.
  - destruct (convertFeature_rejected feature s Hacc) as (s0 & Hrun').
    rewrite Hrun in Hrun'. by injection Hrun' as -> _.
Qed.

Lemma recordOf_synthesized (feature : GeoJSON.Feature) (s : Counters)
    (plotData : ParsedPlotData) :
  recordOf feature s plotData →
  synthesizes feature = true →
  plot_code plotData = synthesizedAt (now_calls s) (random_calls s).
Proof.
  intros (Hcode & _) Hmade. unfold synthesizes in Hmade.
  apply andb_true_iff in Hmade as [_ Hfalsy]. apply negb_true_iff in Hfalsy.
  unfold plotCode in Hcode. rewrite Hfalsy in Hcode.
  cbn in Hcode. by injection Hcode as <-.
Qed.

Lemma convertLoop_stamps (features : list GeoJSON.Feature) :
  ∀ s, ∃ out s',
    convertLoop features [] s = (Return out, s') ∧
    Forall2
      (λ feature plotData,
         synthesizes feature = true →
         ∃ d, plot_code plotData =
                synthesizedAt (now_calls s + d) (random_calls s + d))
      (filter (λ f, accepted f = true) features) out.
Proof.
  induction features as [| feature rest IH]; intros s.
  - exists [], s. split; [done | constructor].
  - destruct (convertLoop_cons feature rest s)
      as (pushed & out & s' & Hrest & -> & Hyes & Hno).
    destruct (IH (if synthesizes feature
                  then {| now_calls := S (now_calls s);
                          random_calls := S (random_calls s) |}
                  else s)) as (out1 & t1 & Hrest1 & Hstamps).
    rewrite Hrest in Hrest1. injection Hrest1 as <- <-.
    eexists _, s'. split; [done |].
    assert (Hshift : Forall2
      (λ feature plotData,
         synthesizes feature = true →
         ∃ d, plot_code plotData =
                synthesizedAt (now_calls s + d) (random_calls s + d))
      (filter (λ f, accepted f = true) rest) out).
    { eapply Forall2_impl; [exact Hstamps |].
      intros f r Hf Hmade. destruct (Hf Hmade) as (d & ->).
      destruct (synthesizes feature); cbn [now_calls random_calls].
      - exists (S d). f_equal; lia.
      - by exists d. }
    destruct (accepted feature) eqn:Hacc.
    + destruct (Hyes eq_refl) as (plotData & -> & Hrecord).
      rewrite filter_cons_True by done. constructor; [| done].
      intros Hmade. exists 0.
      rewrite (recordOf_synthesized _ _ _ Hrecord Hmade). f_equal; lia.
    + rewrite (Hno eq_refl). rewrite filter_cons_False by (rewrite Hacc; done). done.
Qed.


End CodeFacts.

(** ** The fields of a plot record *)

Lemma readUnder_three (properties : gmap string JsValue) (a b c : string) :
  readUnder properties [a; b; c]
    (js_or (js_or (prop properties a) (prop properties b)) (prop properties c)).
Proof.
  unfold readUnder, js_or.
  destruct (truthy (prop properties a)) eqn:Ha.
  { rewrite Ha. exists [], a, [b; c]. repeat split; [constructor | by left]. }
  destruct (truthy (prop properties b)) eqn:Hb.
  { exists [a], b, [c]. repeat split; [by repeat constructor | by left]. }
  exists [a; b], c, []. repeat split; [by repeat constructor | by right].
Qed.

Lemma readUnder_four (properties : gmap string JsValue) (a b c d : string) :
  readUnder properties [a; b; c; d]
    (js_or (js_or (js_or (prop properties a) (prop properties b)) (prop properties c))
           (prop properties d)).
Proof.
  unfold readUnder, js_or.
  destruct (truthy (prop properties a)) eqn:Ha.
  { rewrite !Ha. exists [], a, [b; c; d]. repeat split; [constructor | by left]. }
  destruct (truthy (prop properties b)) eqn:Hb.
  { rewrite Hb. exists [a], b, [c; d]. repeat split; [by repeat constructor | by left]. }
  destruct (truthy (prop properties c)) eqn:Hc.
  { exists [a; b], c, [d]. repeat split; [by repeat constructor | by left]. }
  exists [a; b; c], d, []. repeat split; [by repeat constructor | by right].
Qed.

Section AliasClaims.
Context {T : Turf} {R : Runtime}.

(** C4, amended. Every field of a plot record of the batch is read from the
    attributes of its feature under names compared as written (any other
    spelling is not an alias), tried in a fixed order: PLOT_CODE, plot_code,
    ID for the plot code; LAND_USE, land_use, USE, TYPE for the land use;
    OWNER, owner, OWNER_NAME for the owner; PRICE_USD, price, VALUE for the
    price; NOTES, notes, REMARKS for the notes.  The first alias whose value
    is truthy gives the field, unchanged, and the later ones are ignored even
    when present; when none is truthy the field is the value under the last
    alias, except the plot code, which is then the prefix PLOT_, a reading of
    the clock made during the conversion, an underscore and at most nine
    characters of a random number written in base 36.  The plot code is
    never empty. *)
Theorem fields_read_first_truthy_alias (shapefileData : ShapefileData) (s : Counters) :
  ∃ plotsData s',
    convertToPlotData shapefileData s = (Return plotsData, s') ∧
    Forall2
      (λ feature plotData,
         let properties := default ∅ (GeoJSON.properties feature) in
         (∃ code,
            readUnder properties ["PLOT_CODE"; "plot_code"; "ID"] code ∧
            if truthy code then plot_code plotData = code
            else
              ∃ d, plot_code plotData =
                     JsString ("PLOT_" +:+ pretty (Date_now (now_calls s + d)) +:+ "_" +:+
                               substring 2 9
                                 (Number_toString36 (Math_random (random_calls s + d))))) ∧
         truthy (plot_code plotData) = true ∧
         readUnder properties ["LAND_USE"; "land_use"; "USE"; "TYPE"] (land_use plotData) ∧
         readUnder properties ["OWNER"; "owner"; "OWNER_NAME"] (owner_name plotData) ∧
         readUnder properties ["PRICE_USD"; "price"; "VALUE"] (price_usd plotData) ∧
         readUnder properties ["NOTES"; "notes"; "REMARKS"] (notes plotData))
      (filter (λ feature, accepted feature = true) (features shapefileData)) plotsData.
Proof.
  destruct (convertToPlotData_batch shapefileData s) as (plotsData & s' & Hrun & Hbatch).
  destruct (convertLoop_stamps (features shapefileData) s)
    as (out & s'' & Hstamped & Hstamps).
  unfold convertToPlotData in Hrun. rewrite Hrun in Hstamped.
  injection Hstamped as <- <-.
  exists plotsData, s'. split; [done |]. unfold batchOf in Hbatch.
  apply Forall2_same_length_lookup. split; [by eapply Forall2_length |].
  intros i feature plotData Hfeature HplotData.
  destruct (Forall2_lookup_lr _ _ _ _ _ _ Hbatch Hfeature HplotData) as (s0 & Hrecord).
  pose proof (Forall2_lookup_lr _ _ _ _ _ _ Hstamps Hfeature HplotData) as Hstamp.
  apply list_elem_of_lookup_2, list_elem_of_filter in Hfeature as [Haccepted _].
  destruct Hrecord as (Hcode & _ & _ & -> & -> & -> & -> & _).
  cbn zeta.
  set (properties := default ∅ (GeoJSON.properties feature)) in *.
  assert (Hplot :
    (∃ code,
       readUnder properties ["PLOT_CODE"; "plot_code"; "ID"] code ∧
       if truthy code then plot_code plotData = code
       else ∃ d, plot_code plotData = synthesizedAt (now_calls s + d) (random_calls s + d)) ∧
    truthy (plot_code plotData) = true).
  { pose proof (readUnder_three properties "PLOT_CODE" "plot_code" "ID") as Hread.
    unfold plotCode in Hcode. unfold synthesizes in Hstamp. fold properties in Hstamp.
    destruct (truthy (js_or (js_or (prop properties "PLOT_CODE")
                                   (prop properties "plot_code"))
                            (prop properties "ID"))) eqn:Hfound.
    - cbn in Hcode. injection Hcode as <-. split; [| done].
      eexists. split; [exact Hread |]. by rewrite Hfound.
    - unfold accepted in Haccepted. apply andb_true_iff in Haccepted as [Harea _].
      rewrite Harea in Hstamp. destruct (Hstamp eq_refl) as (d & Hd). split.
      + eexists. split; [exact Hread |]. rewrite Hfound. by exists d.
      + by rewrite Hd. }
  destruct Hplot as [Hplot Htruthy].
  split; [exact Hplot |]. split; [exact Htruthy |].
  split; [apply readUnder_four |]. repeat split; apply readUnder_three.
Qed.

End AliasClaims.

(** ** Further properties of parseShapefileFromZip and the mock features *)

Section MockFacts.
Context {T : Turf} {R : Runtime}.

Lemma mockFeature_returns (i : nat) (s s' : Counters) (feature : GeoJSON.Feature) :
  mockFeature i s = (Return feature, s') →
  now_calls s' = now_calls s ∧
  random_calls s' = (random_calls s + 5)%nat ∧
  prop (default ∅ (GeoJSON.properties feature)) "PLOT_CODE" =
    JsString ("LP" +:+ padStart 3 "0" (pretty (i + 1)%nat)) ∧
  prop (default ∅ (GeoJSON.properties feature)) "OWNER" =
    JsString ("Owner " +:+ pretty (i + 1)%nat).
Proof.
  unfold mockFeature, bind, lift, math_random, ret. cbn [now_calls random_calls].
  destruct (turf_polygon _) as [polygon | e]; [| done].
  intros [= <- <-]. cbn [now_calls random_calls GeoJSON.properties default].
  split; [done |]. split; [lia |]. unfold prop. by simplify_map_eq.
Qed.

Lemma mockFeature_throws (i : nat) (s s' : Counters) (e : string) :
  mockFeature i s = (Throw e, s') →
  now_calls s' = now_calls s ∧ random_calls s' = (random_calls s + 2)%nat.
Proof.
  unfold mockFeature, bind, lift, math_random, ret. cbn [now_calls random_calls].
  destruct (turf_polygon _) as [polygon | e']; [done |].
  intros [= _ <-]. cbn. split; [done | lia].
Qed.

Lemma mockLoop_returns (indices : list nat) :
  ∀ features s all s',
    mockLoop indices features s = (Return all, s') →
    ∃ new,
      all = (features ++ new)%list ∧
      now_calls s' = now_calls s ∧
      random_calls s' = (random_calls s + 5 * length indices)%nat ∧
      Forall2
        (λ i feature,
           prop (default ∅ (GeoJSON.properties feature)) "PLOT_CODE" =
             JsString ("LP" +:+ padStart 3 "0" (pretty (i + 1)%nat)) ∧
           prop (default ∅ (GeoJSON.properties feature)) "OWNER" =
             JsString ("Owner " +:+ pretty (i + 1)%nat))
        indices new.
Proof.
  induction indices as [| i rest IH]; intros features s all s'.
  - cbn. intros [= <- <-]. exists []. rewrite app_nil_r.
    split; [done |]. split; [done |]. split; [lia | constructor].
  - cbn [mockLoop]. unfold bind at 1.
    destruct (mockFeature i s) as [[feature | e] s1] eqn:Hfeature; [| done].
    intros Hrest. apply IH in Hrest as (new & -> & Hnow & Hrandom & Hall).
    apply mockFeature_returns in Hfeature as (Hnow1 & Hrandom1 & Hcode & Howner).
    exists (feature :: new). rewrite <- app_assoc.
    split; [done |]. split; [congruence |]. split; [cbn [length]; lia |].
    by constructor.
Qed.

Lemma mockLoop_throws (indices : list nat) :
  ∀ features s e s',
    mockLoop indices features s = (Throw e, s') →
    now_calls s' = now_calls s ∧ (random_calls s + 2 ≤ random_calls s')%nat.
Proof.
  induction indices as [| i rest IH]; intros features s e s'; [done |].
  cbn [mockLoop]. unfold bind at 1.
  destruct (mockFeature i s) as [[feature | e'] s1] eqn:Hfeature.
  - intros Hrest. apply IH in Hrest as [Hnow Hrandom].
    apply mockFeature_returns in Hfeature as (Hnow1 & Hrandom1 & _).
    split; [congruence | lia].
  - intros [= _ <-]. apply mockFeature_throws in Hfeature as [? ?]. split; [done | lia].
Qed.

Lemma calculateBounds_counters (features : list GeoJSON.Feature) (s : Counters) :
  (calculateBounds features s).2 = s.
Proof.
  unfold calculateBounds, bind, lift, ret.
  destruct (length features =? 0)%nat; [done |].
  destruct (turf_bbox _); [| done]. by destruct (turf_bboxPolygon _).
Qed.

(** X9. The mock generator, when it returns, returns ten features named
    LP001 to LP010 and owned by Owner 1 to Owner 10, in that order, whatever
    the uploaded file is; it never reads the clock and draws exactly fifty
    random numbers. *)
Theorem mock_features_are_numbered (file : File) (s s' : Counters)
    (mockFeatures : list GeoJSON.Feature) :
  generateMockFeaturesFromFile file s = (Return mockFeatures, s') →
  (λ feature, prop (default ∅ (GeoJSON.properties feature)) "PLOT_CODE") <$> mockFeatures =
    JsString <$> ["LP001"; "LP002"; "LP003"; "LP004"; "LP005";
                  "LP006"; "LP007"; "LP008"; "LP009"; "LP010"] ∧
  (λ feature, prop (default ∅ (GeoJSON.properties feature)) "OWNER") <$> mockFeatures =
    JsString <$> ["Owner 1"; "Owner 2"; "Owner 3"; "Owner 4"; "Owner 5";
                  "Owner 6"; "Owner 7"; "Owner 8"; "Owner 9"; "Owner 10"] ∧
  now_calls s' = now_calls s ∧
  random_calls s' = (random_calls s + 50)%nat.
Proof.
  unfold generateMockFeaturesFromFile. intros Hrun.
  apply mockLoop_returns in Hrun as (new & -> & Hnow & Hrandom & Hall).
  cbn [app]. split; [| split; [| by split]].
  - transitivity ((λ i, JsString ("LP" +:+ padStart 3 "0" (pretty (i + 1)%nat)))
                    <$> seq 0 10); [| by vm_compute].
    clear Hnow Hrandom. induction Hall as [| i f others fs [Hcode _] _ IH]; [done |].
    rewrite !fmap_cons. by rewrite Hcode, IH.
  - transitivity ((λ i, JsString ("Owner " +:+ pretty (i + 1)%nat)) <$> seq 0 10);
      [| by vm_compute].
    clear Hnow Hrandom. induction Hall as [| i f others fs [_ Howner] _ IH]; [done |].
    rewrite !fmap_cons. by rewrite Howner, IH.
Qed.

Lemma plotCode_first_alias (properties : gmap string JsValue) (s : Counters) :
  truthy (prop properties "PLOT_CODE") = true →
  plotCode properties s = (Return (prop properties "PLOT_CODE"), s).
Proof.
  intros Hfirst. unfold plotCode, js_or. by rewrite !Hfirst.
Qed.

Lemma generate_then_bounds (file : File) (files : list string) (s : Counters) :
  archive file = Return files →
  hasEntry ".shp" files && hasEntry ".dbf" files = true →
  parseShapefileFromZip file s =
    match generateMockFeaturesFromFile file s with
    | (Return mockFeatures, s1) =>
      match calculateBounds mockFeatures s1 with
      | (Return bounds, s2) =>
        (Return {|
           features := mockFeatures;
           projection := if hasEntry ".prj" files then Some "EPSG:4326" else None;
           bounds := bounds;
           metadata := {|
             fileCount := length files;
             hasProjection := hasEntry ".prj" files
           |}
         |}, s2)
      | (Throw e, s2) => (Throw ("Failed to parse shapefile: " +:+ e), s2)
      end
    | (Throw e, s1) => (Throw ("Failed to parse shapefile: " +:+ e), s1)
    end.
Proof.
  intros Harchive Hboth.
  unfold parseShapefileFromZip, try_catch; unfold bind at 1; unfold lift.
  rewrite Harchive, !missing_find by done.
  apply andb_true_iff in Hboth as [-> ->]. cbn [negb orb]. unfold bind.
  destruct (generateMockFeaturesFromFile file s) as [[mockFeatures | e] s1];
    [| reflexivity].
  destruct (calculateBounds mockFeatures s1) as [[bounds | e] s2]; [| reflexivity].
  unfold ret. by destruct (hasEntry ".prj" files).
Qed.

Lemma missing_component (file : File) (files : list string) (s : Counters) :
  archive file = Return files →
  hasEntry ".shp" files && hasEntry ".dbf" files = false →
  parseShapefileFromZip file s =
    (Throw "Failed to parse shapefile: Shapefile must contain .shp and .dbf files", s).
Proof.
  intros Harchive Hcase.
  unfold parseShapefileFromZip, try_catch; unfold bind at 1; unfold lift.
  rewrite Harchive, !missing_find by done.
  by destruct (hasEntry ".shp" files), (hasEntry ".dbf" files).
Qed.

(** X10. Every failure of [parseShapefileFromZip] carries the prefix "Failed to
    parse shapefile: " followed by its cause, and there are three causes: the
    archive could not be opened, or a required entry is missing, both before
    any random number is drawn; or the geometry library threw while the
    features or their bounds were being built.  The clock is never read. *)
Theorem parse_failure_causes (file : File) (s s' : Counters) (e : string) :
  parseShapefileFromZip file s = (Throw e, s') →
  now_calls s' = now_calls s ∧
  ∃ cause,
    e = "Failed to parse shapefile: " +:+ cause ∧
    ((archive file = Throw cause ∧ s' = s) ∨
     (∃ files,
        archive file = Return files ∧
        hasEntry ".shp" files && hasEntry ".dbf" files = false ∧
        cause = "Shapefile must contain .shp and .dbf files" ∧
        s' = s) ∨
     (∃ files,
        archive file = Return files ∧
        hasEntry ".shp" files && hasEntry ".dbf" files = true ∧
        (generateMockFeaturesFromFile file s = (Throw cause, s') ∨
         ∃ mockFeatures s1,
           generateMockFeaturesFromFile file s = (Return mockFeatures, s1) ∧
           calculateBounds mockFeatures s1 = (Throw cause, s')))).
Proof.
  destruct (archive file) as [files | cause] eqn:Harchive.
  2: { unfold parseShapefileFromZip, try_catch; unfold bind at 1; unfold lift.
       rewrite Harchive. intros [= <- <-]. split; [done |].
       exists cause. split; [done |]. by left. }
  destruct (hasEntry ".shp" files && hasEntry ".dbf" files) eqn:Hboth.
  2: { rewrite (missing_component file files s Harchive Hboth). intros [= <- <-].
       split; [done |]. eexists. split; [done |]. right. left. by exists files. }
  rewrite (generate_then_bounds file files s Harchive Hboth).
  destruct (generateMockFeaturesFromFile file s) as [[mockFeatures | cause] s1] eqn:Hmock.
  2: { intros [= <- <-]. split.
       - unfold generateMockFeaturesFromFile in Hmock.
         by apply mockLoop_throws in Hmock as [? _].
       - exists cause. split; [done |]. right. right. exists files. eauto. }
  destruct (calculateBounds mockFeatures s1) as [[bounds | cause] s2] eqn:Hbounds;
    [done |].
  intros [= <- <-].
  pose proof (calculateBounds_counters mockFeatures s1) as Hsame.
  rewrite Hbounds in Hsame. cbn in Hsame. subst s2.
  unfold generateMockFeaturesFromFile in Hmock.
  pose proof Hmock as Hmock'. apply mockLoop_returns in Hmock' as (_ & _ & Hnow & _).
  split; [done |].
  exists cause. split; [done |]. right. right. exists files.
  split; [done |]. split; [done |]. right. by exists mockFeatures, s1.
Qed.

(** X11. When [parseShapefileFromZip] returns, the archive has an entry ending
    in .shp and one ending in .dbf, the data holds ten features, the file
    count is the number of entries, and the projection is EPSG:4326 exactly
    when some entry ends in .prj; fifty random numbers were drawn and the
    clock was not read. *)
Theorem parse_success_shape (file : File) (s s' : Counters) (data : ShapefileData) :
  parseShapefileFromZip file s = (Return data, s') →
  ∃ files,
    archive file = Return files ∧
    hasEntry ".shp" files = true ∧
    hasEntry ".dbf" files = true ∧
    length (features data) = 10 ∧
    fileCount (metadata data) = length files ∧
    hasProjection (metadata data) = hasEntry ".prj" files ∧
    projection data = (if hasEntry ".prj" files then Some "EPSG:4326" else None) ∧
    now_calls s' = now_calls s ∧
    random_calls s' = (random_calls s + 50)%nat.
Proof.
  destruct (archive file) as [files | cause] eqn:Harchive.
  2: { unfold parseShapefileFromZip, try_catch; unfold bind at 1; unfold lift.
       by rewrite Harchive. }
  destruct (hasEntry ".shp" files && hasEntry ".dbf" files) eqn:Hboth.
  2: { by rewrite (missing_component file files s Harchive Hboth). }
  rewrite (generate_then_bounds file files s Harchive Hboth).
  destruct (generateMockFeaturesFromFile file s) as [[mockFeatures | cause] s1] eqn:Hmock;
    [| done].
  destruct (calculateBounds mockFeatures s1) as [[bounds | cause] s2] eqn:Hbounds;
    [| done].
  intros [= <- <-].
  pose proof (calculateBounds_counters mockFeatures s1) as Hsame.
  rewrite Hbounds in Hsame. cbn in Hsame. subst s2.
  unfold generateMockFeaturesFromFile in Hmock.
  apply mockLoop_returns in Hmock as (new & -> & Hnow & Hrandom & Hall).
  apply andb_true_iff in Hboth as [Hshp Hdbf].
  exists files. cbn.
  repeat split; try done.
  by rewrite <- (Forall2_length _ _ _ Hall).
Qed.

(** X12. A batch made from parsed data carries the mock names: its plot codes
    are, in order, some of LP001 to LP010, none is made up, and converting
    reads neither the clock nor the random source. *)
Theorem parsed_batch_keeps_mock_codes (file : File) (s s1 : Counters)
    (data : ShapefileData) :
  parseShapefileFromZip file s = (Return data, s1) →
  ∃ plotsData,
    convertToPlotData data s1 = (Return plotsData, s1) ∧
    plot_code <$> plotsData `sublist_of`
      JsString <$> ["LP001"; "LP002"; "LP003"; "LP004"; "LP005";
                    "LP006"; "LP007"; "LP008"; "LP009"; "LP010"].
Proof.
  intros Hparse.
  assert (Hcodes :
    Forall2 (λ i feature,
               prop (default ∅ (GeoJSON.properties feature)) "PLOT_CODE" =
                 JsString ("LP" +:+ padStart 3 "0" (pretty (i + 1)%nat)))
            (seq 0 10) (features data)).
  { destruct (archive file) as [files | cause] eqn:Harchive.
    2: { unfold parseShapefileFromZip, try_catch in Hparse;
           unfold bind at 1 in Hparse; unfold lift in Hparse.
         by rewrite Harchive in Hparse. }
    destruct (hasEntry ".shp" files && hasEntry ".dbf" files) eqn:Hboth.
    2: { by rewrite (missing_component file files s Harchive Hboth) in Hparse. }
    rewrite (generate_then_bounds file files s Harchive Hboth) in Hparse.
    destruct (generateMockFeaturesFromFile file s) as [[mockFeatures | cause] s0]
      eqn:Hmock; [| done].
    destruct (calculateBounds mockFeatures s0) as [[bounds | cause] s2]; [| done].
    injection Hparse as <- _. cbn [features].
    unfold generateMockFeaturesFromFile in Hmock.
    apply mockLoop_returns in Hmock as (new & -> & _ & _ & Hall).
    eapply Forall2_impl; [exact Hall |]. by intros i f [? _]. }
  assert (Hnamed : ∀ feature, feature ∈ features data →
    truthy (prop (default ∅ (GeoJSON.properties feature)) "PLOT_CODE") = true).
  { intros feature [j Hj]%list_elem_of_lookup.
    destruct (Forall2_lookup_r _ _ _ _ _ Hcodes Hj) as (i & _ & ->). done. }
  destruct (convertToPlotData_batch data s1) as (plotsData & s2 & Hrun & Hbatch).
  destruct (convertLoop_counters (features data) [] s1)
    as (plots' & s2' & Hrun' & Hnow & Hrandom).
  unfold convertToPlotData in Hrun. rewrite Hrun in Hrun'. injection Hrun' as <- <-.
  assert (Hnone : filter (λ f, synthesizes f = true) (features data) = []).
  { revert Hnamed. generalize (features data) as fs.
    induction fs as [| f fs IH]; intros Hnamed; [done |].
    rewrite filter_cons_False.
    - apply IH. intros f' Hf'. by apply Hnamed, list_elem_of_further.
    - unfold synthesizes, js_or. rewrite !(Hnamed f (list_elem_of_here _ _)).
      by destruct (is_Return _). }
  rewrite Hnone in Hnow, Hrandom. cbn in Hnow, Hrandom.
  assert (s2 = s1) as ->.
  { destruct s1, s2. cbn in *. f_equal; lia. }
  exists plotsData. split; [done |].
  assert (Hkept : plot_code <$> plotsData =
    (λ feature, prop (default ∅ (GeoJSON.properties feature)) "PLOT_CODE")
      <$> filter (λ f, accepted f = true) (features data)).
  { unfold batchOf in Hbatch.
    assert (Hsub : ∀ f, f ∈ filter (λ f, accepted f = true) (features data) →
                        f ∈ features data).
    { intros f Hf. by apply list_elem_of_filter in Hf as [_ ?]. }
    clear Hrun. revert Hsub Hbatch.
    generalize (filter (λ f, accepted f = true) (features data)).
    intros kept Hsub Hbatch.
    induction Hbatch as [| f r fs rs (s0 & Hcode & _) _ IH]; [done |].
    rewrite !fmap_cons. f_equal.
    - rewrite plotCode_first_alias in Hcode
        by (apply Hnamed, Hsub, list_elem_of_here).
      cbn in Hcode. by injection Hcode as <-.
    - apply IH. intros f' Hf'. by apply Hsub, list_elem_of_further. }
  rewrite Hkept.
  transitivity ((λ feature, prop (default ∅ (GeoJSON.properties feature)) "PLOT_CODE")
                  <$> features data).
  { apply fmap_sublist, sublist_filter. }
  replace ((λ feature, prop (default ∅ (GeoJSON.properties feature)) "PLOT_CODE")
             <$> features data)
    with ((λ i, JsString ("LP" +:+ padStart 3 "0" (pretty (i + 1)%nat))) <$> seq 0 10).
  { by vm_compute. }
  clear -Hcodes. induction Hcodes as [| i f others fs Hcode _ IH]; [done |].
  rewrite !fmap_cons. by rewrite Hcode, IH.
Qed.

End MockFacts.

(** ** Further properties of validateFile *)

Lemma toLowerCase_app (a b : string) :
  toLowerCase (a +:+ b) = toLowerCase a +:+ toLowerCase b.
Proof. induction a as [| c a IH]; simpl; [done | by rewrite IH]. Qed.

Lemma lower_ascii_dot (c : ascii) : Ascii.eqb (lower_ascii c) "." = Ascii.eqb c ".".
Proof. destruct c as [[] [] [] [] [] [] [] []]; reflexivity. Qed.

Lemma occurs_toLowerCase (s : string) : occurs "." (toLowerCase s) = occurs "." s.
Proof.
  induction s as [| c s IH]; cbn; [done |]. by rewrite lower_ascii_dot, IH.
Qed.

Lemma split_without_separator (sep : ascii) (s : string) :
  occurs sep s = false → split sep s = [s].
Proof.
  induction s as [| c s IH]; cbn; [done |].
  destruct (Ascii.eqb c sep); [done |]. cbn. intros Hs. by rewrite (IH Hs).
Qed.

Lemma split_at_last_separator (sep : ascii) (a b : string) :
  occurs sep b = false →
  ∃ first middle, split sep (a +:+ String sep b) = first :: (middle ++ [b])%list.
Proof.
  intros Hb. induction a as [| c a (first & middle & IH)]; simpl.
  - rewrite Ascii.eqb_refl, (split_without_separator sep b Hb). by exists "", [].
  - rewrite IH. destruct (Ascii.eqb c sep).
    + by exists "", (first :: middle).
    + by exists (String c first), middle.
Qed.

Lemma validateFile_valid (file : File) :
  isValid (validateFile file) = true ↔
  (size file ≤ 52428800)%N ∧
  ∃ ext, extension file = Some ext ∧ ext ∈ acceptedExtensions.
Proof.
  unfold validateFile.
  change (map (remove_first ".") getSupportedFormats) with acceptedExtensions.
  change (50 * 1024 * 1024)%N with 52428800%N.
  destruct (N.ltb_spec 52428800 (size file)) as [Hbig | Hsmall].
  - split; [| intros [? _]; lia].
    by destruct (missing _ || negb _).
  - destruct (extension file) as [ext |]; cbn [missing default].
    + destruct (String.eqb_spec ext "") as [-> | Hne]; cbn [orb].
      * split; [done |]. intros (_ & ext & [= <-] & Hin).
        unfold acceptedExtensions in Hin. reasons.
      * case_bool_decide as Hin; cbn [negb].
        -- split; [| done]. intros _. split; [done |]. by exists ext.
        -- split; [done |]. intros (_ & ? & [= <-] & ?). done.
    + split; [done |]. by intros (_ & ? & ? & _).
Qed.

(** X13. When the name of a file is a stem, a dot and an extension with no dot
    in it, the file is judged by that extension alone, read in lower case:
    it passes exactly when it has at most 50 MB and the lowered extension is
    one of the six accepted ones, whatever the stem and the letter case. *)
Theorem validateFile_by_last_extension (file : File) (stem ext : string) :
  name file = stem +:+ "." +:+ ext →
  occurs "." ext = false →
  extension file = Some (toLowerCase ext) ∧
  (isValid (validateFile file) = true ↔
     (size file ≤ 52428800)%N ∧ toLowerCase ext ∈ acceptedExtensions).
Proof.
  intros Hname Hext.
  assert (Hextension : extension file = Some (toLowerCase ext)).
  { unfold extension. rewrite Hname, toLowerCase_app.
    change (toLowerCase ("." +:+ ext)) with (String "." (toLowerCase ext)).
    destruct (split_at_last_separator "." (toLowerCase stem) (toLowerCase ext))
      as (first & middle & ->); [by rewrite occurs_toLowerCase |].
    by rewrite app_comm_cons, last_snoc. }
  split; [done |]. rewrite validateFile_valid, Hextension.
  split.
  - intros (Hsize & ? & [= <-] & Hin). done.
  - intros [Hsize Hin]. split; [done |]. by eexists.
Qed.

(** X14. A file whose name has no dot is judged by its whole name: it passes
    exactly when it has at most 50 MB and its name, in lower case, is itself
    one of the six accepted extensions; a name without extension is otherwise
    rejected. *)
Theorem validateFile_dotless_name (file : File) :
  occurs "." (name file) = false →
  extension file = Some (toLowerCase (name file)) ∧
  (isValid (validateFile file) = true ↔
     (size file ≤ 52428800)%N ∧ toLowerCase (name file) ∈ acceptedExtensions).
Proof.
  intros Hname.
  assert (Hextension : extension file = Some (toLowerCase (name file))).
  { unfold extension.
    by rewrite split_without_separator by (by rewrite occurs_toLowerCase). }
  split; [done |]. rewrite validateFile_valid, Hextension.
  split.
  - intros (Hsize & ? & [= <-] & Hin). done.
  - intros [Hsize Hin]. split; [done |]. by eexists.
Qed.

(** ** Properties of handleSupabaseError, uploadShapefile and deleteShapefileImport *)

Lemma handleSupabaseError_nonempty (error : Thrown.t) : handleSupabaseError error ≠ "".
Proof.
  unfold handleSupabaseError.
  repeat (destruct (hasCode error _); [done |]).
  by destruct (String.eqb_spec (Thrown.message error) "").
Qed.

Lemma handleSupabaseError_newError (message : string) :
  message ≠ "" → handleSupabaseError (newError message) = message.
Proof.
  intros Hne. unfold handleSupabaseError, hasCode, newError. cbn.
  by destruct (String.eqb_spec message "").
Qed.

(** ** Reading a count back out of a message *)








Section UploadFacts.
Context {T : Turf} {R : Runtime} {B : Supabase}.

Lemma parse_throw_prefixed (file : File) (s s' : Counters) (e : string) :
  parseShapefileFromZip file s = (Throw e, s') →
  ∃ cause, e = "Failed to parse shapefile: " +:+ cause.
Proof.
  unfold parseShapefileFromZip, try_catch, throw.
  destruct (bind _ _ s) as [[data | cause] s0]; [done |].
  intros [= <- _]. by exists cause.
Qed.

Lemma uploadShapefile_steps (file : File) (userId : string) (w : World) :
  let importData := importRow file userId w in
  let asked := (requests w ++ [InsertImport importData])%list in
  uploadShapefile file userId w =
    match insert_import (requests w) importData with
    | Failed importError =>
      (Throw (handleSupabaseError importError),
       {| counters := afterClock w; requests := asked |})
    | Data id =>
      match parseShapefileFromZip file (afterClock w) with
      | (Throw message, c2) =>
        (Throw (handleSupabaseError (newError message)),
         {| counters := c2;
            requests := (asked ++ [MarkImportFailed id message])%list |})
      | (Return shapefileData, c2) =>
        match convertToPlotData shapefileData c2 with
        | (Throw message, c3) =>
          (Throw (handleSupabaseError (newError message)),
           {| counters := c3;
              requests := (asked ++ [MarkImportFailed id message])%list |})
        | (Return plotsData, c3) =>
          match rpc_bulk_import_plots asked plotsData id with
          | Failed error =>
            (Throw (handleSupabaseError error),
             {| counters := c3;
                requests :=
                  ((asked ++ [BulkImportPlots plotsData id]) ++
                   [MarkImportFailed id
                      (if Thrown.isError error then Thrown.message error
                       else "Processing failed")])%list |})
          | Data result =>
            (Return {|
               importId := id;
               upload_message :=
                 "Successfully imported " +:+ pretty (imported_count result) +:+ " plots"
             |},
             {| counters := c3;
                requests := (asked ++ [BulkImportPlots plotsData id])%list |})
          end
        end
      end
    end.
Proof.
  intros importData asked.
  subst importData asked.
  cbv [uploadShapefile rethrown bindT try_catchT inWorld ask bulkImportPlots
       raise retT date_now counters requests importRow afterClock].
  destruct (insert_import _ _) as [id | importError]; [| done].
  destruct (parseShapefileFromZip file _) as [[shapefileData | message] c2]; [| done].
  destruct (convertToPlotData shapefileData c2) as [[plotsData | message] c3]; [| done].
  by destruct (rpc_bulk_import_plots _ plotsData id) as [result | error].
Qed.

(** X15. An upload or a deletion that is rejected is always rejected with a
    message that is not empty. *)
Theorem rejections_carry_a_message (file : File) (userId id : string)
    (w w' : World) (message : string) :
  (uploadShapefile file userId w = (Throw message, w') → message ≠ "") ∧
  (deleteShapefileImport id w = (Throw message, w') → message ≠ "").
Proof.
  split.
  - rewrite uploadShapefile_steps.
    destruct (insert_import _ _) as [importId | importError].
    2: { intros [= <- _]. apply handleSupabaseError_nonempty. }
    destruct (parseShapefileFromZip file _) as [[shapefileData | cause] c2].
    2: { intros [= <- _]. apply handleSupabaseError_nonempty. }
    destruct (convertToPlotData shapefileData c2) as [[plotsData | cause] c3].
    2: { intros [= <- _]. apply handleSupabaseError_nonempty. }
    destruct (rpc_bulk_import_plots _ plotsData importId) as [result | error]; [done |].
    intros [= <- _]. apply handleSupabaseError_nonempty.
  - cbv [deleteShapefileImport rethrown bindT ask raise retT counters requests].
    destruct (delete_plots _ id) as [error |].
    { intros [= <- _]. apply handleSupabaseError_nonempty. }
    destruct (delete_import _ id) as [error |]; [| done].
    intros [= <- _]. apply handleSupabaseError_nonempty.
Qed.

(** X16. When an upload resolves, the import row was inserted and its id is
    the one returned; the file was parsed and converted; exactly one bulk
    import was asked, for that id and with exactly the batch of the
    conversion; nothing else was asked, and the message tells the count the
    backend answered. *)
Theorem upload_resolves_after_one_bulk_import (file : File) (userId : string)
    (w w' : World) (uploaded : UploadResult) :
  uploadShapefile file userId w = (Return uploaded, w') →
  ∃ shapefileData c2 plotsData result,
    insert_import (requests w) (importRow file userId w) = Data (importId uploaded) ∧
    parseShapefileFromZip file (afterClock w) = (Return shapefileData, c2) ∧
    convertToPlotData shapefileData c2 = (Return plotsData, counters w') ∧
    rpc_bulk_import_plots (requests w ++ [InsertImport (importRow file userId w)])%list
      plotsData (importId uploaded) = Data result ∧
    requests w' =
      (requests w ++ [InsertImport (importRow file userId w);
                      BulkImportPlots plotsData (importId uploaded)])%list ∧
    upload_message uploaded =
      "Successfully imported " +:+ pretty (imported_count result) +:+ " plots".
Proof.
  rewrite uploadShapefile_steps.
  destruct (insert_import _ _) as [id | importError]; [| done].
  destruct (parseShapefileFromZip file _) as [[shapefileData | cause] c2]; [| done].
  destruct (convertToPlotData shapefileData c2) as [[plotsData | cause] c3] eqn:Hconvert;
    [| done].
  destruct (rpc_bulk_import_plots _ plotsData id) as [result | error] eqn:Hbulk; [| done].
  intros [= <- <-]. exists shapefileData, c2, plotsData, result.
  cbn [importId upload_message counters requests].
  repeat split; try done. by rewrite <- app_assoc.
Qed.

(** X17. When an upload is rejected, either the insert of the import row
    failed and nothing was asked after it, the file being neither parsed nor
    converted; or the row was inserted and the last thing asked is to mark
    that very import as failed, after at most one bulk import. *)
Theorem rejected_upload_is_marked_failed (file : File) (userId : string)
    (w w' : World) (message : string) :
  uploadShapefile file userId w = (Throw message, w') →
  (∃ importError,
     insert_import (requests w) (importRow file userId w) = Failed importError ∧
     message = handleSupabaseError importError ∧
     counters w' = afterClock w ∧
     requests w' = (requests w ++ [InsertImport (importRow file userId w)])%list) ∨
  (∃ id stored attempted,
     insert_import (requests w) (importRow file userId w) = Data id ∧
     requests w' =
       (requests w ++ InsertImport (importRow file userId w) ::
          attempted ++ [MarkImportFailed id stored])%list ∧
     (attempted = [] ∨ ∃ plotsData, attempted = [BulkImportPlots plotsData id])).
Proof.
  rewrite uploadShapefile_steps.
  destruct (insert_import _ _) as [id | importError].
  2: { intros [= <- <-]. left. by exists importError. }
  destruct (parseShapefileFromZip file _) as [[shapefileData | cause] c2].
  2: { intros [= <- <-]. right. exists id, cause, []. cbn [requests].
       split; [done |]. split; [by rewrite <- app_assoc | by left]. }
  destruct (convertToPlotData shapefileData c2) as [[plotsData | cause] c3].
  2: { intros [= <- <-]. right. exists id, cause, []. cbn [requests].
       split; [done |]. split; [by rewrite <- app_assoc | by left]. }
  destruct (rpc_bulk_import_plots _ plotsData id) as [result | error]; [done |].
  intros [= <- <-]. right. eexists id, _, [BulkImportPlots plotsData id]. cbn [requests].
  split; [done |]. split; [by rewrite <- !app_assoc | right; by exists plotsData].
Qed.

(** X18. When the import row is inserted and parsing the file fails, the
    upload is rejected with the parser's own message, unchanged, and the same
    message is stored on the import, which is marked failed; no bulk import
    is asked. *)
Theorem failed_parse_is_recorded (file : File) (userId id : string)
    (w : World) (cause : string) (c2 : Counters) :
  insert_import (requests w) (importRow file userId w) = Data id →
  parseShapefileFromZip file (afterClock w) = (Throw cause, c2) →
  uploadShapefile file userId w =
    (Throw cause,
     {| counters := c2;
        requests := (requests w ++ [InsertImport (importRow file userId w);
                                    MarkImportFailed id cause])%list |}).
Proof.
  intros Hinsert Hparse. rewrite uploadShapefile_steps, Hinsert, Hparse.
  destruct (parse_throw_prefixed _ _ _ _ Hparse) as (reason & ->).
  rewrite handleSupabaseError_newError by done. by rewrite <- app_assoc.
Qed.

(** X19. When the bulk import is refused, the upload is rejected with the
    message [handleSupabaseError] makes of the backend's error, while the
    message stored on the import is the error's own message only if the error
    is an [Error], and "Processing failed" otherwise. *)
Theorem failed_bulk_import_is_recorded (file : File) (userId id : string)
    (w : World) (shapefileData : ShapefileData) (c2 c3 : Counters)
    (plotsData : list ParsedPlotData) (error : Thrown.t) :
  insert_import (requests w) (importRow file userId w) = Data id →
  parseShapefileFromZip file (afterClock w) = (Return shapefileData, c2) →
  convertToPlotData shapefileData c2 = (Return plotsData, c3) →
  rpc_bulk_import_plots (requests w ++ [InsertImport (importRow file userId w)])%list
    plotsData id = Failed error →
  uploadShapefile file userId w =
    (Throw (handleSupabaseError error),
     {| counters := c3;
        requests :=
          (requests w ++
             [InsertImport (importRow file userId w);
              BulkImportPlots plotsData id;
              MarkImportFailed id
                (if Thrown.isError error then Thrown.message error
                 else "Processing failed")])%list |}).
Proof.
  intros Hinsert Hparse Hconvert Hbulk.
  rewrite uploadShapefile_steps, Hinsert, Hparse, Hconvert, Hbulk.
  by rewrite <- !app_assoc.
Qed.

(** X20. Deleting an import asks for its plots to be deleted first, and asks
    for the import itself to be deleted only when that went through: a
    deletion resolves exactly when both requests were answered without error,
    and when the plots could not be deleted the import is left alone. *)
Theorem import_deleted_only_after_its_plots (id : string) (w : World) :
  ∃ outcome asked,
    deleteShapefileImport id w =
      (outcome, {| counters := counters w; requests := (requests w ++ asked)%list |}) ∧
    (asked = [DeletePlotsOfImport id] ∨
     asked = [DeletePlotsOfImport id; DeleteImport id]) ∧
    (DeleteImport id ∈ asked ↔ delete_plots (requests w) id = None) ∧
    (is_Return outcome = true ↔
       delete_plots (requests w) id = None ∧
       delete_import (requests w ++ [DeletePlotsOfImport id])%list id = None).
Proof.
  cbv [deleteShapefileImport rethrown bindT ask raise retT counters requests].
  destruct (delete_plots _ id) as [error |] eqn:Hplots.
  - eexists _, [DeletePlotsOfImport id]. split; [done |]. split; [by left |].
    split; split; try done.
    + intros Hin. apply elem_of_cons in Hin as [Hin | Hin]; [done |].
      by apply elem_of_nil in Hin.
    + by intros [? _].
  - destruct (delete_import _ id) as [error |] eqn:Himport.
    + eexists _, [DeletePlotsOfImport id; DeleteImport id].
      split; [by rewrite <- app_assoc |]. split; [by right |].
      split; split; try done.
      * intros _. apply list_elem_of_further, list_elem_of_here.
      * by intros [_ ?].
    + eexists _, [DeletePlotsOfImport id; DeleteImport id].
      split; [by rewrite <- app_assoc |]. split; [by right |].
      split; split; try done.
      intros _. apply list_elem_of_further, list_elem_of_here.
Qed.


End UploadFacts.

(** ** Properties of getImportStatistics *)

Lemma statuses_partition (data : list ImportSummary) :
  (length (List.filter (statusIs completed) data) +
   length (List.filter (statusIs failed) data) +
   length (List.filter (statusIs processing) data))%nat = length data.
Proof.
  induction data as [| i data IH]; [done |].
  cbn [List.filter].
  assert (Hone :
    (statusIs completed i = true ∧ statusIs failed i = false ∧
     statusIs processing i = false) ∨
    (statusIs completed i = false ∧ statusIs failed i = true ∧
     statusIs processing i = false) ∨
    (statusIs completed i = false ∧ statusIs failed i = false ∧
     statusIs processing i = true)).
  { unfold statusIs. destruct (status i); auto. }
  destruct Hone as [(-> & -> & ->) | [(-> & -> & ->) | (-> & -> & ->)]];
    cbn [length]; lia.
Qed.

Section StatisticsFacts.
Context {T : Turf} {R : Runtime} {B : Supabase} {C : Calendar}.

Lemma filterM_isRecent (data : list ImportSummary) :
  ∀ s, ∃ kept,
    filterM isRecent data s =
      (Return kept,
       {| now_calls := (now_calls s + length data)%nat;
          random_calls := random_calls s |}) ∧
    (length kept ≤ length data)%nat.
Proof.
  induction data as [| i data IH]; intros s.
  - exists []. split; [| done]. destruct s as [n r]. cbn. by rewrite Nat.add_0_r.
  - cbn [filterM]. unfold bind at 1. unfold isRecent at 1, bind, date_now, ret.
    cbn [now_calls random_calls].
    destruct (IH {| now_calls := S (now_calls s); random_calls := random_calls s |})
      as (kept & Hrest & Hlength).
    unfold bind in Hrest. rewrite Hrest. cbn [now_calls random_calls].
    eexists. split.
    + cbn [length]. by replace (S (now_calls s) + length data)%nat
        with (now_calls s + S (length data))%nat by lia.
    + destruct (_ <? _)%float; cbn [length]; lia.
Qed.

(** X22. When [getImportStatistics] returns, the numbers of successful, failed
    and processing imports add up to the total, the number of recent imports
    is at most the total, one request was made, and the clock was read once
    for every import. *)
Theorem import_statistics_add_up (w w' : World) (statistics : ImportStatistics) :
  getImportStatistics w = (Return statistics, w') →
  (successful_imports statistics + failed_imports statistics +
   processing_imports statistics)%nat = total_imports statistics ∧
  (recent_imports statistics ≤ total_imports statistics)%nat ∧
  requests w' = (requests w ++ [SelectImportSummaries])%list ∧
  now_calls (counters w') =
    (now_calls (counters w) + total_imports statistics)%nat.
Proof.
  cbv [getImportStatistics rethrown bindT ask raise retT inWorld counters requests].
  destruct (select_import_summaries _) as [data | error]; [| done].
  destruct (filterM_isRecent data (counters w)) as (kept & Hkept & Hlength).
  cbv [counters] in Hkept. destruct w as [c asked]. rewrite Hkept.
  intros [= <- <-]. cbn.
  split; [apply statuses_partition |]. by split.
Qed.

End StatisticsFacts.

(** ** The further properties on the example runs *)

Lemma convertToPlotData_app_witness :
  let a := Examples.featureOf Examples.square {[ "PLOT_CODE" := JsString "A" ]} in
  let b := Examples.featureOf Examples.bowtie ∅ in
  let c := Examples.featureOf Examples.square ∅ in
  ∃ plots1 s1 plots2 s2,
    @convertToPlotData Planar.turf Planar.runtime (Examples.shapefile [a]) Examples.start =
      (Return plots1, s1) ∧
    @convertToPlotData Planar.turf Planar.runtime (Examples.shapefile [b; c]) s1 =
      (Return plots2, s2) ∧
    @convertToPlotData Planar.turf Planar.runtime (Examples.shapefile [a; b; c])
      Examples.start = (Return (plots1 ++ plots2)%list, s2).
Proof.
  apply (@convertToPlotData_app Planar.turf Planar.runtime).
  reflexivity.
Defined.


Lemma mock_features_are_numbered_witness :
  (λ feature, prop (default ∅ (GeoJSON.properties feature)) "PLOT_CODE")
    <$> features Runs.data =
    JsString <$> ["LP001"; "LP002"; "LP003"; "LP004"; "LP005";
                  "LP006"; "LP007"; "LP008"; "LP009"; "LP010"] ∧
  (λ feature, prop (default ∅ (GeoJSON.properties feature)) "OWNER")
    <$> features Runs.data =
    JsString <$> ["Owner 1"; "Owner 2"; "Owner 3"; "Owner 4"; "Owner 5";
                  "Owner 6"; "Owner 7"; "Owner 8"; "Owner 9"; "Owner 10"] ∧
  now_calls Runs.parsed.2 = now_calls Examples.start ∧
  random_calls Runs.parsed.2 = (random_calls Examples.start + 50)%nat.
Proof.
  apply (@mock_features_are_numbered Planar.turf Planar.runtime Runs.parcels).
  vm_compute. reflexivity.
Defined.

Lemma parse_failure_causes_witness :
  now_calls Examples.start = now_calls Examples.start ∧
  ∃ cause,
    "Failed to parse shapefile: Shapefile must contain .shp and .dbf files" =
      "Failed to parse shapefile: " +:+ cause ∧
    ((archive Runs.incomplete = Throw cause ∧ Examples.start = Examples.start) ∨
     (∃ files,
        archive Runs.incomplete = Return files ∧
        hasEntry ".shp" files && hasEntry ".dbf" files = false ∧
        cause = "Shapefile must contain .shp and .dbf files" ∧
        Examples.start = Examples.start) ∨
     (∃ files,
        archive Runs.incomplete = Return files ∧
        hasEntry ".shp" files && hasEntry ".dbf" files = true ∧
        (@generateMockFeaturesFromFile Planar.turf Planar.runtime Runs.incomplete
           Examples.start = (Throw cause, Examples.start) ∨
         ∃ mockFeatures s1,
           @generateMockFeaturesFromFile Planar.turf Planar.runtime Runs.incomplete
             Examples.start = (Return mockFeatures, s1) ∧
           @calculateBounds Planar.turf mockFeatures s1 = (Throw cause, Examples.start)))).
Proof.
  apply (@parse_failure_causes Planar.turf Planar.runtime).
  reflexivity.
Defined.

Lemma parse_success_shape_witness :
  ∃ files,
    archive Runs.parcels = Return files ∧
    hasEntry ".shp" files = true ∧
    hasEntry ".dbf" files = true ∧
    length (features Runs.data) = 10 ∧
    fileCount (metadata Runs.data) = length files ∧
    hasProjection (metadata Runs.data) = hasEntry ".prj" files ∧
    projection Runs.data = (if hasEntry ".prj" files then Some "EPSG:4326" else None) ∧
    now_calls Runs.parsed.2 = now_calls Examples.start ∧
    random_calls Runs.parsed.2 = (random_calls Examples.start + 50)%nat.
Proof.
  apply (@parse_success_shape Planar.turf Planar.runtime Runs.parcels).
  vm_compute. reflexivity.
Defined.

Lemma parsed_batch_keeps_mock_codes_witness :
  ∃ plotsData,
    @convertToPlotData Planar.turf Planar.runtime Runs.data Runs.parsed.2 =
      (Return plotsData, Runs.parsed.2) ∧
    plot_code <$> plotsData `sublist_of`
      JsString <$> ["LP001"; "LP002"; "LP003"; "LP004"; "LP005";
                    "LP006"; "LP007"; "LP008"; "LP009"; "LP010"].
Proof.
  apply (@parsed_batch_keeps_mock_codes Planar.turf Planar.runtime
           Runs.parcels Examples.start).
  vm_compute. reflexivity.
Defined.

Lemma validateFile_by_last_extension_witness :
  let file := {| name := "Parcels.Final.ZIP"; size := 4096; archive := Return [] |} in
  extension file = Some (toLowerCase "ZIP") ∧
  (isValid (validateFile file) = true ↔
     (size file ≤ 52428800)%N ∧ toLowerCase "ZIP" ∈ acceptedExtensions).
Proof.
  apply (validateFile_by_last_extension
           {| name := "Parcels.Final.ZIP"; size := 4096; archive := Return [] |}
           "Parcels.Final" "ZIP").
  - reflexivity.
  - reflexivity.
Defined.

Lemma validateFile_dotless_name_witness :
  let file := {| name := "ZIP"; size := 4096; archive := Return [] |} in
  extension file = Some (toLowerCase (name file)) ∧
  (isValid (validateFile file) = true ↔
     (size file ≤ 52428800)%N ∧ toLowerCase (name file) ∈ acceptedExtensions).
Proof.
  apply (validateFile_dotless_name
           {| name := "ZIP"; size := 4096; archive := Return [] |}).
  reflexivity.
Defined.

Lemma upload_resolves_after_one_bulk_import_witness :
  let row := @importRow Planar.runtime Runs.parcels "user-1" Backends.world in
  ∃ shapefileData c2 plotsData result,
    @insert_import Backends.accepting (requests Backends.world) row =
      Data (importId Runs.uploaded) ∧
    @parseShapefileFromZip Planar.turf Planar.runtime Runs.parcels
      (afterClock Backends.world) = (Return shapefileData, c2) ∧
    @convertToPlotData Planar.turf Planar.runtime shapefileData c2 =
      (Return plotsData, counters Runs.upload.2) ∧
    @rpc_bulk_import_plots Backends.accepting
      (requests Backends.world ++ [InsertImport row])%list
      plotsData (importId Runs.uploaded) = Data result ∧
    requests Runs.upload.2 =
      (requests Backends.world ++
         [InsertImport row; BulkImportPlots plotsData (importId Runs.uploaded)])%list ∧
    upload_message Runs.uploaded =
      "Successfully imported " +:+ pretty (imported_count result) +:+ " plots".
Proof.
  apply (@upload_resolves_after_one_bulk_import Planar.turf Planar.runtime
           Backends.accepting Runs.parcels "user-1" Backends.world).
  vm_compute. reflexivity.
Defined.

Lemma rejected_upload_is_marked_failed_witness :
  let row := @importRow Planar.runtime Runs.parcels "user-1" Backends.world in
  let w' :=
    (@uploadShapefile Planar.turf Planar.runtime Backends.refusingPlots
       Runs.parcels "user-1" Backends.world).2 in
  (∃ importError,
     @insert_import Backends.refusingPlots (requests Backends.world) row =
       Failed importError ∧
     "Permission denied" = handleSupabaseError importError ∧
     counters w' = afterClock Backends.world ∧
     requests w' = (requests Backends.world ++ [InsertImport row])%list) ∨
  (∃ id stored attempted,
     @insert_import Backends.refusingPlots (requests Backends.world) row = Data id ∧
     requests w' =
       (requests Backends.world ++ InsertImport row ::
          attempted ++ [MarkImportFailed id stored])%list ∧
     (attempted = [] ∨ ∃ plotsData, attempted = [BulkImportPlots plotsData id])).
Proof.
  apply (@rejected_upload_is_marked_failed Planar.turf Planar.runtime
           Backends.refusingPlots Runs.parcels "user-1" Backends.world).
  vm_compute. reflexivity.
Defined.

Lemma failed_parse_is_recorded_witness :
  let row := @importRow Planar.runtime Runs.incomplete "user-1" Backends.world in
  let cause := "Failed to parse shapefile: Shapefile must contain .shp and .dbf files" in
  @uploadShapefile Planar.turf Planar.runtime Backends.accepting
    Runs.incomplete "user-1" Backends.world =
    (Throw cause,
     {| counters := afterClock Backends.world;
        requests := (requests Backends.world ++
                       [InsertImport row; MarkImportFailed "import-1" cause])%list |}).
Proof.
  apply (@failed_parse_is_recorded Planar.turf Planar.runtime Backends.accepting).
  - reflexivity.
  - vm_compute. reflexivity.
Defined.

Lemma failed_bulk_import_is_recorded_witness :
  let row := @importRow Planar.runtime Runs.parcels "user-1" Backends.world in
  @uploadShapefile Planar.turf Planar.runtime Backends.refusingPlots
    Runs.parcels "user-1" Backends.world =
    (Throw (handleSupabaseError Backends.denied),
     {| counters := {| now_calls := 1; random_calls := 50 |};
        requests :=
          (requests Backends.world ++
             [InsertImport row;
              BulkImportPlots [] "import-1";
              MarkImportFailed "import-1"
                (if Thrown.isError Backends.denied then Thrown.message Backends.denied
                 else "Processing failed")])%list |}).
Proof.
  apply (@failed_bulk_import_is_recorded Planar.turf Planar.runtime
           Backends.refusingPlots Runs.parcels "user-1" "import-1" Backends.world
           Runs.data {| now_calls := 1; random_calls := 50 |}
           {| now_calls := 1; random_calls := 50 |} [] Backends.denied).
  - reflexivity.
  - vm_compute. reflexivity.
  - vm_compute. reflexivity.
  - reflexivity.
Defined.


Lemma import_statistics_add_up_witness :
  let statistics :=
    {| total_imports := 3; successful_imports := 1; failed_imports := 1;
       processing_imports := 1; total_plots_imported := 10; recent_imports := 1 |} in
  (successful_imports statistics + failed_imports statistics +
   processing_imports statistics)%nat = total_imports statistics ∧
  (recent_imports statistics ≤ total_imports statistics)%nat ∧
  requests Runs.statistics.2 = (requests Backends.world ++ [SelectImportSummaries])%list ∧
  now_calls (counters Runs.statistics.2) =
    (now_calls (counters Backends.world) + total_imports statistics)%nat.
Proof.
  apply (@import_statistics_add_up Planar.runtime Backends.accepting
           Backends.calendar Backends.world).
  vm_compute. reflexivity.
Defined.

(** ** Properties of onDrop *)

Section ScreenFacts.
Context {T : Turf} {R : Runtime} {B : Supabase} {D : Numbers}.

Lemma change_change (fileId : string) (u1 u2 : UploadedFile.t → UploadedFile.t)
    (l : list UploadedFile.t) :
  (∀ f, UploadedFile.id (u1 f) = UploadedFile.id f) →
  change fileId u2 (change fileId u1 l) = change fileId (u2 ∘ u1) l.
Proof.
  intros Hid. unfold change. rewrite map_map. apply map_ext. intros f.
  destruct (String.eqb (UploadedFile.id f) fileId) eqn:Hf.
  - by rewrite Hid, Hf.
  - by rewrite Hf.
Qed.

Lemma processFile_run (userId fileId : string) (file : File) (σ : Screen) :
  processFile userId fileId file σ =
    (Return tt,
     if isValid (validateFile file) then
       match uploadShapefile file userId (world σ) with
       | (Return result, w) =>
         {| files := change fileId (completedWith result ∘ inProgress) (files σ);
            world := w |}
       | (Throw message, w) =>
         {| files := change fileId (failedWith message ∘ inProgress) (files σ);
            world := w |}
       end
     else
       {| files :=
            change fileId (failedWith (String.concat ", " (errors (validateFile file))))
              (files σ);
          world := world σ |}).
Proof.
  unfold processFile, try_catch.
  destruct (isValid (validateFile file)); cbn [negb]; [| done].
  unfold bind, setFiles, outside. cbn [files world].
  destruct (uploadShapefile file userId (world σ)) as [[result | message] w];
    cbn [files world]; by rewrite change_change.
Qed.

Lemma processFile_files (userId fileId : string) (file : File) (σ : Screen) :
  ∃ update w,
    processFile userId fileId file σ =
      (Return tt, {| files := change fileId update (files σ); world := w |}) ∧
    ∀ f, UploadedFile.id (update f) = UploadedFile.id f ∧
         UploadedFile.name (update f) = UploadedFile.name f ∧
         UploadedFile.size (update f) = UploadedFile.size f ∧
         settled (update f).
Proof.
  rewrite processFile_run.
  destruct (isValid (validateFile file)).
  - destruct (uploadShapefile file userId (world σ)) as [[result | message] w].
    + eexists _, _. split; [done |]. intros f. repeat split. by left.
    + eexists _, _. split; [done |]. intros f. repeat split. by right.
  - eexists _, _. split; [done |]. intros f. repeat split. by right.
Qed.


Lemma uploadShapefile_asks (file : File) (userId : string) (w : World) :
  ∃ more,
    requests (uploadShapefile file userId w).2 =
      (requests w ++ InsertImport (importRow file userId w) :: more)%list ∧
    Forall (λ request, isInsertImport request = false) more.
Proof.
  rewrite uploadShapefile_steps.
  destruct (insert_import _ _) as [id | importError].
  2: { exists []. by split. }
  destruct (parseShapefileFromZip file _) as [[shapefileData | cause] c2].
  2: { eexists [_]. cbn [snd requests]. rewrite <- app_assoc. split; [done |].
       by repeat constructor. }
  destruct (convertToPlotData shapefileData c2) as [[plotsData | cause] c3].
  2: { eexists [_]. cbn [snd requests]. rewrite <- app_assoc. split; [done |].
       by repeat constructor. }
  destruct (rpc_bulk_import_plots _ plotsData id) as [result | error].
  - eexists [_]. cbn [snd requests]. rewrite <- app_assoc. split; [done |].
    by repeat constructor.
  - eexists [_; _]. cbn [snd requests]. rewrite <- !app_assoc. split; [done |].
    by repeat constructor.
Qed.

Lemma processEach_returns (userId : string) (pairs : list (File * string)) :
  ∀ σ, ∃ σ', processEach userId pairs σ = (Return tt, σ').
Proof.
  induction pairs as [| [file fileId] rest IH]; intros σ.
  - by exists σ.
  - cbn [processEach]. unfold bind.
    destruct (processFile_files userId fileId file σ) as (update & w & -> & _).
    apply IH.
Qed.

Lemma processEach_files (userId : string) (pairs : list (File * string)) :
  ∀ σ σ',
    processEach userId pairs σ = (Return tt, σ') →
    Forall2
      (λ f f',
         UploadedFile.id f' = UploadedFile.id f ∧
         UploadedFile.name f' = UploadedFile.name f ∧
         UploadedFile.size f' = UploadedFile.size f ∧
         (UploadedFile.id f ∈ pairs.*2 → settled f') ∧
         (UploadedFile.id f ∉ pairs.*2 → f' = f))
      (files σ) (files σ').
Proof.
  induction pairs as [| [file fileId] rest IH]; intros σ σ'.
  - intros [= <-]. apply Forall_Forall2_diag, Forall_forall. intros f _.
    repeat split. intros Hin. by apply elem_of_nil in Hin.
  - cbn [processEach]. unfold bind.
    destruct (processFile_files userId fileId file σ) as (update & w & -> & Hupdate).
    intros Hrest. apply IH in Hrest. cbn [files] in Hrest.
    unfold change in Hrest. apply Forall2_fmap_l in Hrest.
    eapply Forall2_impl; [exact Hrest |].
    intros f f'. cbn. intros (Hid & Hname & Hsize & Hin & Hout).
    destruct (Hupdate f) as (Uid & Uname & Usize & Usettled).
    destruct (String.eqb (UploadedFile.id f) fileId) eqn:Hf.
    + apply String.eqb_eq in Hf.
      rewrite Uid in Hid, Hin, Hout. rewrite Uname in Hname. rewrite Usize in Hsize.
      repeat split; try done.
      * intros _.
        destruct (decide (UploadedFile.id f ∈ rest.*2)) as [Hrestin | Hrestout];
          [by apply Hin |].
        by rewrite (Hout Hrestout).
      * intros Hnot. exfalso. apply Hnot. rewrite Hf. apply list_elem_of_here.
    + apply String.eqb_neq in Hf.
      repeat split; try done.
      * intros Hcons. apply elem_of_cons in Hcons as [Heq | Hrestin]; [done |].
        by apply Hin.
      * intros Hnot. apply Hout. intros Hrestin. apply Hnot.
        by apply list_elem_of_further.
Qed.


Lemma inserts_of_others (more : list Request) :
  Forall (λ request, isInsertImport request = false) more →
  List.filter isInsertImport more = [].
Proof.
  induction 1 as [| request more Hrequest _ IH]; [done |].
  cbn [List.filter]. by rewrite Hrequest.
Qed.

Lemma processEach_requests (userId : string) (pairs : list (File * string)) :
  ∀ σ σ',
    processEach userId pairs σ = (Return tt, σ') →
    ∃ asked,
      requests (world σ') = (requests (world σ) ++ asked)%list ∧
      Forall2
        (λ file request, ∃ w, request = InsertImport (importRow file userId w))
        (List.filter (λ file, isValid (validateFile file)) pairs.*1)
        (List.filter isInsertImport asked).
Proof.
  induction pairs as [| [file fileId] rest IH]; intros σ σ'.
  - intros [= <-]. exists []. rewrite app_nil_r. split; [done | constructor].
  - cbn [processEach]. unfold bind. rewrite processFile_run.
    cbn [fmap list_fmap fst List.filter].
    destruct (isValid (validateFile file)).
    + destruct (uploadShapefile_asks file userId (world σ)) as (more & Hmore & Hnone).
      destruct (uploadShapefile file userId (world σ)) as [[result | message] w];
        cbn [snd] in Hmore;
        intros Hrest; apply IH in Hrest as (asked & Hasked & Hrows);
        cbn [world] in Hasked;
        (exists ((InsertImport (importRow file userId (world σ)) :: more) ++ asked)%list;
         split; [by rewrite Hasked, Hmore, <- app_assoc |];
         rewrite List.filter_app; cbn [List.filter isInsertImport];
         rewrite (inserts_of_others more Hnone); cbn [app];
         constructor; [by exists (world σ) | done]).
    + intros Hrest. apply IH in Hrest as (asked & Hasked & Hrows).
      by exists asked.
Qed.

Lemma processEach_rejected (userId : string) (pairs : list (File * string)) :
  ∀ σ σ',
    processEach userId pairs σ = (Return tt, σ') →
    ∀ i file fileId,
      pairs !! i = Some (file, fileId) →
      isValid (validateFile file) = false →
      (∀ j other, j ≠ i → pairs !! j = Some other → other.2 ≠ fileId) →
      Forall2
        (λ f f',
           UploadedFile.id f = fileId →
           f' = failedWith (String.concat ", " (errors (validateFile file))) f)
        (files σ) (files σ').
Proof.
  induction pairs as [| [file0 fileId0] rest IH]; intros σ σ' Hrun i file fileId Hi;
    [done |].
  intros Hinvalid Hothers. cbn [processEach] in Hrun. unfold bind in Hrun.
  destruct i as [| i].
  - injection Hi as -> ->.
    rewrite processFile_run, Hinvalid in Hrun.
    apply processEach_files in Hrun. cbn [files] in Hrun.
    unfold change in Hrun. apply Forall2_fmap_l in Hrun.
    eapply Forall2_impl; [exact Hrun |].
    intros f f'. cbn. intros (_ & _ & _ & _ & Hout) Hf.
    apply String.eqb_eq in Hf as Hfb. rewrite Hfb in Hout. cbn in Hout.
    apply Hout. rewrite Hf. intros Hin.
    apply list_elem_of_lookup in Hin as (j & Hj).
    rewrite list_lookup_fmap in Hj.
    destruct (rest !! j) as [other |] eqn:Hother; [| done].
    injection Hj as Hj. by apply (Hothers (S j) other).
  - destruct (processFile_files userId fileId0 file0 σ) as (update & w & Hstep & _).
    rewrite Hstep in Hrun.
    assert (∀ j other, j ≠ i → rest !! j = Some other → other.2 ≠ fileId) as Hlater.
    { intros j other Hj. apply (Hothers (S j) other). lia. }
    pose proof (IH _ _ Hrun i file fileId Hi Hinvalid Hlater) as Hrest.
    cbn [files] in Hrest. unfold change in Hrest. apply Forall2_fmap_l in Hrest.
    eapply Forall2_impl; [exact Hrest |].
    intros f f'. cbn. intros Hf' Hf.
    assert (fileId0 ≠ fileId) as Hne by (by apply (Hothers 0%nat (file0, fileId0))).
    assert (String.eqb (UploadedFile.id f) fileId0 = false) as Hfb.
    { apply String.eqb_neq. by rewrite Hf. }
    rewrite Hfb in Hf'. by apply Hf'.
Qed.



Lemma newFile_run (file : File) (σ : Screen) :
  newFile file σ =
    (Return (entryAt (counters (world σ)) 0 file),
     {| files := files σ;
        world := {| counters := advanced (counters (world σ)) 1;
                    requests := requests (world σ) |} |}).
Proof.
  unfold newFile, bind, reading, outside, date_now, math_random, ret, entryAt, idAt,
    advanced.
  cbn [files world counters requests now_calls random_calls].
  by rewrite !Nat.add_0_r, !Nat.add_1_r.
Qed.

Lemma entryAt_advanced (c : Counters) (i : nat) (file : File) :
  entryAt c (S i) file = entryAt (advanced c 1) i file.
Proof.
  unfold entryAt, idAt, advanced. cbn [now_calls random_calls].
  by replace (now_calls c + 1 + i)%nat with (now_calls c + S i)%nat by lia;
     replace (random_calls c + 1 + i)%nat with (random_calls c + S i)%nat by lia.
Qed.

Lemma arrayMap_newFile (acceptedFiles : list File) :
  ∀ σ,
    arrayMap newFile acceptedFiles σ =
      (Return (imap (entryAt (counters (world σ))) acceptedFiles),
       {| files := files σ;
          world := {| counters := advanced (counters (world σ)) (length acceptedFiles);
                      requests := requests (world σ) |} |}).
Proof.
  induction acceptedFiles as [| file rest IH]; intros σ.
  - destruct σ as [entries [[n r] asked]]. unfold advanced. cbn.
    by rewrite !Nat.add_0_r.
  - cbn [arrayMap]. unfold bind at 1. rewrite newFile_run.
    unfold bind at 1. rewrite IH. unfold ret.
    cbn [files world counters requests imap length].
    f_equal; [f_equal; f_equal |].
    + apply imap_ext. intros i file' _. symmetry. apply entryAt_advanced.
    + unfold advanced. cbn [now_calls random_calls].
      by replace (now_calls (counters (world σ)) + 1 + length rest)%nat
           with (now_calls (counters (world σ)) + S (length rest))%nat by lia;
         replace (random_calls (counters (world σ)) + 1 + length rest)%nat
           with (random_calls (counters (world σ)) + S (length rest))%nat by lia.
Qed.

Lemma processFiles_each (userId : string) (newFiles : list UploadedFile.t) :
  ∀ acceptedFiles index,
    (index + length acceptedFiles ≤ length newFiles)%nat →
    processFiles userId newFiles index acceptedFiles =
      processEach userId (zip acceptedFiles (UploadedFile.id <$> drop index newFiles)).
Proof.
  induction acceptedFiles as [| file rest IH]; intros index Hlength; [done |].
  cbn [length] in Hlength. cbn [processFiles].
  destruct (lookup_lt_is_Some_2 newFiles index) as [entry Hentry]; [lia |].
  rewrite Hentry, (drop_S _ _ _ Hentry). cbn [fmap list_fmap zip_with processEach].
  rewrite IH by lia. done.
Qed.

Lemma onDrop_run (user : User.t) (acceptedFiles : list File) (σ : Screen) :
  let newFiles := imap (entryAt (counters (world σ))) acceptedFiles in
  onDrop (Some user) acceptedFiles σ =
    processEach (User.id user) (zip acceptedFiles (UploadedFile.id <$> newFiles))
      {| files := (files σ ++ newFiles)%list;
         world := {| counters := advanced (counters (world σ)) (length acceptedFiles);
                     requests := requests (world σ) |} |}.
Proof.
  intros newFiles. unfold onDrop, bind. rewrite arrayMap_newFile.
  unfold setFiles. cbn [files world].
  rewrite processFiles_each; [done |].
  subst newFiles. by rewrite length_imap.
Qed.

Lemma pairs_ids (c : Counters) (acceptedFiles : list File) :
  (zip acceptedFiles (UploadedFile.id <$> imap (entryAt c) acceptedFiles)).*2 =
    UploadedFile.id <$> imap (entryAt c) acceptedFiles.
Proof. apply snd_zip. by rewrite length_fmap, length_imap. Qed.

Lemma pairs_files (c : Counters) (acceptedFiles : list File) :
  (zip acceptedFiles (UploadedFile.id <$> imap (entryAt c) acceptedFiles)).*1 =
    acceptedFiles.
Proof. apply fst_zip. by rewrite length_fmap, length_imap. Qed.

Lemma pairs_lookup (c : Counters) (acceptedFiles : list File) (i : nat)
    (pair : File * string) :
  zip acceptedFiles (UploadedFile.id <$> imap (entryAt c) acceptedFiles) !! i = Some pair ↔
  ∃ file, acceptedFiles !! i = Some file ∧ pair = (file, idAt c i).
Proof.
  rewrite lookup_zip_with_Some. split.
  - intros (file & fileId & -> & Hfile & Hid). exists file. split; [done |].
    rewrite list_lookup_fmap, list_lookup_imap, Hfile in Hid.
    by injection Hid as <-.
  - intros (file & Hfile & ->). exists file, (idAt c i). split; [done |].
    split; [done |]. by rewrite list_lookup_fmap, list_lookup_imap, Hfile.
Qed.

(** X23. With a user signed in, [onDrop] always runs to its end; the list
    shown then is the entries that were there, each with its id, name and
    size, followed by one entry for each dropped file, in the order of the
    files and with their names and sizes, and each of these is done with:
    completed or in error, none left uploading or processing. *)
Theorem onDrop_settles_every_file (user : User.t) (acceptedFiles : list File)
    (σ : Screen) :
  ∃ σ' kept added,
    onDrop (Some user) acceptedFiles σ = (Return tt, σ') ∧
    files σ' = (kept ++ added)%list ∧
    Forall2
      (λ f f',
         UploadedFile.id f' = UploadedFile.id f ∧
         UploadedFile.name f' = UploadedFile.name f ∧
         UploadedFile.size f' = UploadedFile.size f)
      (files σ) kept ∧
    Forall2
      (λ file entry,
         UploadedFile.name entry = name file ∧
         UploadedFile.size entry = size file ∧
         settled entry)
      acceptedFiles added.
Proof.
  rewrite onDrop_run.
  destruct (processEach_returns (User.id user)
              (zip acceptedFiles
                 (UploadedFile.id <$> imap (entryAt (counters (world σ))) acceptedFiles))
              {| files := (files σ ++ imap (entryAt (counters (world σ))) acceptedFiles)%list;
                 world := {| counters := advanced (counters (world σ)) (length acceptedFiles);
                             requests := requests (world σ) |} |})
    as (σ' & Hrun).
  rewrite Hrun. apply processEach_files in Hrun. cbn [files] in Hrun.
  rewrite pairs_ids in Hrun.
  apply Forall2_app_inv_l in Hrun as (kept & added & Hkept & Hadded & Hfiles).
  exists σ', kept, added. split; [done |]. split; [done |]. split.
  - eapply Forall2_impl; [exact Hkept |]. cbn. by intros f f' (? & ? & ? & _).
  - apply Forall2_same_length_lookup. split.
    + apply Forall2_length in Hadded. by rewrite length_imap in Hadded.
    + intros i file entry Hfile Hentry.
      assert (imap (entryAt (counters (world σ))) acceptedFiles !! i =
                Some (entryAt (counters (world σ)) i file)) as Hnew.
      { by rewrite list_lookup_imap, Hfile. }
      destruct (Forall2_lookup_l _ _ _ _ _ Hadded Hnew)
        as (entry' & Hentry' & _ & Hname & Hsize & Hin & _).
      rewrite Hentry in Hentry'. injection Hentry' as <-.
      split; [done |]. split; [done |]. apply Hin.
      apply list_elem_of_fmap_2. by apply list_elem_of_lookup_2 with i.
Qed.

(** X24. With a user signed in, the import rows [onDrop] asks to insert
    are, in order, one for each dropped file that passes [validateFile] and
    none for a file that does not: the row of a file carries its name and its
    size, a file name made of a reading of the clock, an underscore and the
    name, the id of the user signed in, and the status processing. *)
Theorem onDrop_one_import_per_valid_file (user : User.t) (acceptedFiles : list File)
    (σ : Screen) :
  ∃ σ' asked,
    onDrop (Some user) acceptedFiles σ = (Return tt, σ') ∧
    requests (world σ') = (requests (world σ) ++ asked)%list ∧
    Forall2
      (λ file request,
         ∃ now,
           request =
             InsertImport {|
               filename := pretty (Date_now now) +:+ "_" +:+ name file;
               original_filename := name file;
               uploaded_by := User.id user;
               file_size := size file;
               insert_status := "processing"
             |})
      (List.filter (λ file, isValid (validateFile file)) acceptedFiles)
      (List.filter isInsertImport asked).
Proof.
  rewrite onDrop_run.
  destruct (processEach_returns (User.id user)
              (zip acceptedFiles
                 (UploadedFile.id <$> imap (entryAt (counters (world σ))) acceptedFiles))
              {| files := (files σ ++ imap (entryAt (counters (world σ))) acceptedFiles)%list;
                 world := {| counters := advanced (counters (world σ)) (length acceptedFiles);
                             requests := requests (world σ) |} |})
    as (σ' & Hrun).
  rewrite Hrun. apply processEach_requests in Hrun as (asked & Hasked & Hrows).
  rewrite pairs_files in Hrows. cbn [world requests] in Hasked.
  exists σ', asked. split; [done |]. split; [done |].
  eapply Forall2_impl; [exact Hrows |].
  intros file request (w & ->). by exists (now_calls (counters w)).
Qed.

(** X25. When none of the ids made for the dropped files is the id of an
    entry already shown, [onDrop] leaves the entries already shown as they
    are and adds one entry for each dropped file after them. *)
Theorem onDrop_keeps_earlier_entries (user : User.t) (acceptedFiles : list File)
    (σ : Screen) :
  (∀ f i, f ∈ files σ → (i < length acceptedFiles)%nat →
          UploadedFile.id f ≠ idAt (counters (world σ)) i) →
  ∃ σ' added,
    onDrop (Some user) acceptedFiles σ = (Return tt, σ') ∧
    files σ' = (files σ ++ added)%list ∧
    length added = length acceptedFiles.
Proof.
  intros Hfresh. rewrite onDrop_run.
  destruct (processEach_returns (User.id user)
              (zip acceptedFiles
                 (UploadedFile.id <$> imap (entryAt (counters (world σ))) acceptedFiles))
              {| files := (files σ ++ imap (entryAt (counters (world σ))) acceptedFiles)%list;
                 world := {| counters := advanced (counters (world σ)) (length acceptedFiles);
                             requests := requests (world σ) |} |})
    as (σ' & Hrun).
  rewrite Hrun. apply processEach_files in Hrun. cbn [files] in Hrun.
  rewrite pairs_ids in Hrun.
  apply Forall2_app_inv_l in Hrun as (kept & added & Hkept & Hadded & Hfiles).
  exists σ', added. split; [done |]. split.
  - rewrite Hfiles. f_equal.
    assert (∀ f, f ∈ files σ →
              UploadedFile.id f ∉
                UploadedFile.id <$> imap (entryAt (counters (world σ))) acceptedFiles)
      as Hout.
    { intros f Hf Hin. apply list_elem_of_fmap in Hin as (entry & Hid & Hentry).
      apply list_elem_of_lookup in Hentry as (j & Hj).
      rewrite list_lookup_imap in Hj.
      destruct (acceptedFiles !! j) as [file |] eqn:Hfile; [| done].
      injection Hj as <-. apply (Hfresh f j); [done | | done].
      by apply lookup_lt_Some in Hfile. }
    clear Hfiles Hadded Hfresh.
    induction Hkept as [| f f' before after (_ & _ & _ & _ & Hsame) _ IH]; [done |].
    rewrite Hsame.
    + f_equal. apply IH. intros g Hg. apply Hout. by apply list_elem_of_further.
    + apply Hout. apply list_elem_of_here.
  - apply Forall2_length in Hadded. by rewrite length_imap in Hadded.
Qed.

(** X26. When the ids made for the dropped files differ from one another, a
    dropped file that does not pass [validateFile] is shown in error with
    the reasons of [validateFile] joined by a comma and a space, with no
    progress, no import and no count. *)
Theorem onDrop_shows_validation_errors (user : User.t) (acceptedFiles : list File)
    (σ : Screen) (i : nat) (file : File) :
  (∀ j k, (j < length acceptedFiles)%nat → (k < length acceptedFiles)%nat → j ≠ k →
          idAt (counters (world σ)) j ≠ idAt (counters (world σ)) k) →
  acceptedFiles !! i = Some file →
  isValid (validateFile file) = false →
  ∃ σ',
    onDrop (Some user) acceptedFiles σ = (Return tt, σ') ∧
    files σ' !! (length (files σ) + i)%nat =
      Some {| UploadedFile.id := idAt (counters (world σ)) i;
              UploadedFile.name := name file;
              UploadedFile.size := size file;
              UploadedFile.status := "error";
              UploadedFile.progress := 0;
              UploadedFile.plotsCount := None;
              UploadedFile.error :=
                Some (String.concat ", " (errors (validateFile file)));
              UploadedFile.importId := None |}.
Proof.
  intros Hdistinct Hfile Hinvalid. rewrite onDrop_run.
  destruct (processEach_returns (User.id user)
              (zip acceptedFiles
                 (UploadedFile.id <$> imap (entryAt (counters (world σ))) acceptedFiles))
              {| files := (files σ ++ imap (entryAt (counters (world σ))) acceptedFiles)%list;
                 world := {| counters := advanced (counters (world σ)) (length acceptedFiles);
                             requests := requests (world σ) |} |})
    as (σ' & Hrun).
  rewrite Hrun. exists σ'. split; [done |].
  eapply (processEach_rejected _ _ _ _ Hrun i file (idAt (counters (world σ)) i))
    in Hinvalid as Hrel.
  - cbn [files] in Hrel.
    assert ((files σ ++ imap (entryAt (counters (world σ))) acceptedFiles)%list
              !! (length (files σ) + i)%nat =
            Some (entryAt (counters (world σ)) i file)) as Hnew.
    { rewrite lookup_app_r by lia.
      replace (length (files σ) + i - length (files σ))%nat with i by lia.
      by rewrite list_lookup_imap, Hfile. }
    destruct (Forall2_lookup_l _ _ _ _ _ Hrel Hnew) as (entry & -> & Hentry).
    by rewrite Hentry.
  - apply pairs_lookup. by exists file.
  - intros j other Hj Hother. apply pairs_lookup in Hother as (file' & Hfile' & ->).
    cbn [snd]. apply Hdistinct; [| | done].
    + by apply lookup_lt_Some in Hfile'.
    + by apply lookup_lt_Some in Hfile.
Qed.



End ScreenFacts.

Lemma onDrop_keeps_earlier_entries_witness :
  ∃ σ' added,
    @onDrop Planar.turf Planar.runtime Backends.accepting Screens.numbers
      (Some Screens.user) Screens.dropped Screens.screen = (Return tt, σ') ∧
    files σ' = (files Screens.screen ++ added)%list ∧
    length added = length Screens.dropped.
Proof.
  apply (@onDrop_keeps_earlier_entries Planar.turf Planar.runtime
           Backends.accepting Screens.numbers).
  intros f i Hf Hi. apply list_elem_of_singleton in Hf as ->.
  simpl in Hi.
  destruct i as [| [| i]]; [| | lia]; intros Hid; vm_compute in Hid; discriminate Hid.
Defined.

Lemma onDrop_shows_validation_errors_witness :
  ∃ σ',
    @onDrop Planar.turf Planar.runtime Backends.accepting Screens.numbers
      (Some Screens.user) Screens.dropped Screens.screen = (Return tt, σ') ∧
    files σ' !! 2%nat =
      Some {| UploadedFile.id := "17000000000010.5";
              UploadedFile.name := "notes.txt";
              UploadedFile.size := 12;
              UploadedFile.status := "error";
              UploadedFile.progress := 0;
              UploadedFile.plotsCount := None;
              UploadedFile.error :=
                Some "Unsupported file format. Please upload a ZIP file containing shapefile components.";
              UploadedFile.importId := None |}.
Proof.
  apply (@onDrop_shows_validation_errors Planar.turf Planar.runtime
           Backends.accepting Screens.numbers Screens.user Screens.dropped
           Screens.screen 1 Screens.notes).
  - intros j k Hj Hk Hne. simpl in Hj, Hk.
    destruct j as [| [| j]], k as [| [| k]]; try lia;
      intros Hid; vm_compute in Hid; discriminate Hid.
  - reflexivity.
  - reflexivity.
Defined.

